(** * GraphqlWsClient: the GraphQL-over-WebSocket client protocol engine

    A shallow embedding of [channels_graphql_ws/client.py] and the
    properties of its receive loop, message construction, handshake and
    bounded wait. *)

From Stdlib Require Import ZArith List String Ascii Bool Lia.
From Stdlib Require Import PrimFloat SpecFloat FloatOps.
Import ListNotations.
Open Scope string_scope.
Open Scope list_scope.
Open Scope Z_scope.

Set Warnings "-register-all".

(** ** Python values and the builtins the client applies to them *)

Module Py.

(** The JSON-shaped values that travel in messages.  A [dict] is kept in
    insertion order; its keys are strings, as in decoded JSON. *)
Inductive value : Type :=
| VNone
| VBool (b : bool)
| VInt (z : Z)
| VStr (s : string)
| VList (l : list value)
| VDict (d : list (string * value)).

Definition dict : Type := list (string * value).

(** The exceptions that can leave the client. *)
Inductive exn : Type :=
| KeyError (key : string)
| TypeError
| AssertionError
| TimeoutError                                     (* asyncio.TimeoutError *)
| OverflowError
| TransportError (what : string)                   (* any other transport fault *)
| GraphqlWsResponseError (response errors : value).

(** [d.get(k)] on a dict: [None] of Rocq is the absent key. *)
Fixpoint dict_lookup (k : string) (d : dict) : option value :=
  match d with
  | [] => None
  | (k', v) :: d' => if String.eqb k k' then Some v else dict_lookup k d'
  end.

(** [d.get(k, default)]. *)
Definition dict_get (k : string) (default : value) (d : dict) : value :=
  match dict_lookup k d with
  | Some v => v
  | None => default
  end.

(** [d[k]]: a missing key raises [KeyError]. *)
Definition dict_getitem (k : string) (d : dict) : value + exn :=
  match dict_lookup k d with
  | Some v => inl v
  | None => inr (KeyError k)
  end.

(** [d[k] = v]: an existing key keeps its place, a new one goes last. *)
Fixpoint dict_set (k : string) (v : value) (d : dict) : dict :=
  match d with
  | [] => [(k, v)]
  | (k', v') :: d' =>
      if String.eqb k k' then (k, v) :: d' else (k', v') :: dict_set k v d'
  end.

(** [d.update(other)]. *)
Definition dict_update (d other : dict) : dict :=
  fold_left (fun acc kv => dict_set (fst kv) (snd kv) acc) other d.

Definition dict_keys (d : dict) : list string := map fst d.

(** [a == b].  [bool] is a subclass of [int], so [True == 1]; dicts
    compare without regard to order. *)
Fixpoint py_eq (a b : value) {struct a} : bool :=
  match a, b with
  | VNone, VNone => true
  | VBool x, VBool y => Bool.eqb x y
  | VBool x, VInt y => Z.eqb (Z.b2z x) y
  | VInt x, VBool y => Z.eqb x (Z.b2z y)
  | VInt x, VInt y => Z.eqb x y
  | VStr x, VStr y => String.eqb x y
  | VList x, VList y =>
      (fix all2 (l1 l2 : list value) {struct l1} : bool :=
         match l1, l2 with
         | [], [] => true
         | u :: l1', v :: l2' => py_eq u v && all2 l1' l2'
         | _, _ => false
         end) x y
  | VDict x, VDict y =>
      Nat.eqb (List.length x) (List.length y)
      && (fix sub (d1 : list (string * value)) {struct d1} : bool :=
            match d1 with
            | [] => true
            | (k, u) :: d1' =>
                match dict_lookup k y with
                | Some v => py_eq u v && sub d1'
                | None => false
                end
            end) x
  | _, _ => false
  end.

(** [bool(v)], the truth value used by [or]. *)
Definition truthy (v : value) : bool :=
  match v with
  | VNone => false
  | VBool b => b
  | VInt z => negb (Z.eqb z 0)
  | VStr s => negb (String.eqb s "")
  | VList l => match l with [] => false | _ => true end
  | VDict d => match d with [] => false | _ => true end
  end.

(** [a or b]. *)
Definition py_or (a b : value) : value := if truthy a then a else b.

(** [v is None] and [v is not None]. *)
Definition is_none (v : value) : bool :=
  match v with VNone => true | _ => false end.

(** Substring test, the meaning of [needle in haystack] on two strings. *)
Fixpoint substring_of (needle hay : string) : bool :=
  String.prefix needle hay
  || match hay with
     | EmptyString => false
     | String _ hay' => substring_of needle hay'
     end.

(** [key in container] for a string [key]: key membership on a dict,
    element membership on a list, substring on a string; the other
    values are not containers and raise [TypeError]. *)
Definition py_in (key : string) (container : value) : bool + exn :=
  match container with
  | VDict d => inl (existsb (String.eqb key) (dict_keys d))
  | VList l => inl (existsb (py_eq (VStr key)) l)
  | VStr s => inl (substring_of key s)
  | VNone | VBool _ | VInt _ => inr TypeError
  end.

(** [container[key]] for a string [key]: only a dict can be indexed by a
    string. *)
Definition py_getitem (key : string) (container : value) : value + exn :=
  match container with
  | VDict d => dict_getitem key d
  | _ => inr TypeError
  end.

(** A Python number, as a timeout is given: an [int] or a [float]
    (binary64). *)
Inductive number : Type :=
| Int (z : Z)
| Float (f : float).

(** The float nearest to an integer (ties to even), infinite when the
    integer is out of range. *)
Definition nearest_float (z : Z) : float :=
  SF2Prim (binary_normalize prec emax z 0 false).

(** The conversion of an [int] operand that meets a [float]: it raises
    [OverflowError] on an int too large for a float. *)
Definition float_of_int (z : Z) : float + exn :=
  if PrimFloat.is_infinity (nearest_float z) then inr OverflowError
  else inl (nearest_float z).

(** [n > 0]. *)
Definition positive (n : number) : bool :=
  match n with
  | Int z => Z.ltb 0 z
  | Float f => PrimFloat.ltb 0 f
  end.

(** [n - x] for a float [x]: the result is a float. *)
Definition minus_float (n : number) (x : float) : number + exn :=
  match n with
  | Float f => inl (Float (PrimFloat.sub f x))
  | Int z =>
      match float_of_int z with
      | inl f => inl (Float (PrimFloat.sub f x))
      | inr e => inr e
      end
  end.

End Py.

(** ** [textwrap.dedent], as the standard library computes it *)

Module Textwrap.

Definition newline : ascii := "010"%char.
Definition tab : ascii := "009"%char.

(** The characters of the class [[ \t]]. *)
Definition is_blank (c : ascii) : bool :=
  Ascii.eqb c " "%char || Ascii.eqb c tab.

(** [text.split("\n")]. *)
Fixpoint split_lines (text : string) : list string :=
  match text with
  | EmptyString => [EmptyString]
  | String c text' =>
      if Ascii.eqb c newline then EmptyString :: split_lines text'
      else match split_lines text' with
           | l :: ls => String c l :: ls
           | [] => [String c EmptyString]
           end
  end.

(** ["\n".join(lines)]. *)
Fixpoint join_lines (lines : list string) : string :=
  match lines with
  | [] => EmptyString
  | [l] => l
  | l :: ls => (l ++ String newline (join_lines ls))%string
  end.

Fixpoint all_blank (l : string) : bool :=
  match l with
  | EmptyString => true
  | String c l' => is_blank c && all_blank l'
  end.

(** [_whitespace_only_re.sub('', text)], one line at a time: a line made
    of spaces and tabs only becomes empty. *)
Definition clear_blank_line (l : string) : string :=
  if all_blank l then EmptyString else l.

(** The spaces and tabs a line starts with. *)
Fixpoint leading_blanks (l : string) : string :=
  match l with
  | EmptyString => EmptyString
  | String c l' =>
      if is_blank c then String c (leading_blanks l') else EmptyString
  end.

(** [_leading_whitespace_re.findall(text)]: the indentation of every
    line that has a character other than space and tab. *)
Definition indents (lines : list string) : list string :=
  map leading_blanks
      (filter (fun l => negb (String.eqb l EmptyString)) lines).

(** The [for ... zip(margin, indent)] scan: cut [margin] at the first
    position where it differs from [indent]. *)
Fixpoint cut_at_mismatch (margin indent : string) : string :=
  match margin, indent with
  | String x margin', String y indent' =>
      if Ascii.eqb x y then String x (cut_at_mismatch margin' indent')
      else EmptyString
  | _, _ => margin
  end.

(** One turn of the [for indent in indents] loop. *)
Definition narrow (margin : option string) (indent : string) : option string :=
  match margin with
  | None => Some indent
  | Some m =>
      if String.prefix m indent then Some m
      else if String.prefix indent m then Some indent
      else Some (cut_at_mismatch m indent)
  end.

Definition margin_of (lines : list string) : option string :=
  fold_left narrow (indents lines) None.

Fixpoint drop_chars (n : nat) (l : string) : string :=
  match n, l with
  | S n', String _ l' => drop_chars n' l'
  | _, _ => l
  end.

(** [re.sub(r'(?m)^' + margin, '', text)], one line at a time. *)
Definition strip_margin (margin l : string) : string :=
  if String.prefix margin l then drop_chars (String.length margin) l else l.

Definition dedent (text : string) : string :=
  let lines := map clear_blank_line (split_lines text) in
  match margin_of lines with
  | Some (String c m) => join_lines (map (strip_margin (String c m)) lines)
  | _ => join_lines lines
  end.

End Textwrap.

(** ** The transport and the world the client runs in *)

Module Transport.
Import Py.

(** The calls the client makes on its transport, as a log records them. *)
Inductive call : Type :=
| Connect (timeout : Z)
| Send (message : dict)
| Receive
| Shutdown.

(** What one [receive()] of the transport ends in. *)
Inductive reaction : Type :=
| Deliver (message : dict)
| Fault (e : exn).

(** Modelled from the spec: the transport interface [GraphqlWsTransport]
    ([connect], [send], [receive], [shutdown]; module [.transport] is not
    among the sources).  The transport is scripted: [inbound] lists, for
    each [receive()] still to come, the clock ticks it takes and how it
    ends; once the script is dry a [receive()] never resumes.  [now] counts
    the ticks of the monotonic clock, which [time.monotonic()] reads as a
    float; [uuids_drawn] counts the identifiers minted so far; [trace]
    logs the transport calls, oldest first. *)
Record world : Type := mkWorld {
  connect_fault : option exn;
  send_faults : list (option exn);
  inbound : list (N * reaction);
  now : Z;
  uuids_drawn : nat;
  trace : list call
}.

(** How a coroutine ends: it returns, raises, or stays suspended for
    ever on a [receive()]. *)
Inductive outcome (A : Type) : Type :=
| Return (a : A)
| Raise (e : exn)
| Pending.
Arguments Return {A} a.
Arguments Raise {A} e.
Arguments Pending {A}.

Definition M (A : Type) : Type := world -> outcome A * world.

Definition ret {A : Type} (a : A) : M A := fun w => (Return a, w).

Definition raise {A : Type} (e : exn) : M A := fun w => (Raise e, w).

Definition bind {A B : Type} (c : M A) (k : A -> M B) : M B :=
  fun w =>
    match c w with
    | (Return a, w') => k a w'
    | (Raise e, w') => (Raise e, w')
    | (Pending, w') => (Pending, w')
    end.

(** A pure step that may raise. *)
Definition lift {A : Type} (r : A + exn) : M A :=
  match r with
  | inl a => ret a
  | inr e => raise e
  end.

Definition log (c : call) (w : world) : world :=
  mkWorld (connect_fault w) (send_faults w) (inbound w) (now w)
          (uuids_drawn w) (trace w ++ [c]).

(** Modelled from the spec: [transport.connect(timeout)] of the scripted transport. *)
Definition connect (timeout : Z) : M unit :=
  fun w =>
    match connect_fault w with
    | None => (Return tt, log (Connect timeout) w)
    | Some e => (Raise e, log (Connect timeout) w)
    end.

(** The world once [message] has been handed to the transport. *)
Definition sent (message : dict) (w : world) : world :=
  mkWorld (connect_fault w) (tl (send_faults w)) (inbound w) (now w)
          (uuids_drawn w) (trace w ++ [Send message]).

(** Modelled from the spec: [transport.send(message)] of the scripted transport. *)
Definition send (message : dict) : M unit :=
  fun w =>
    match send_faults w with
    | Some e :: _ => (Raise e, sent message w)
    | _ => (Return tt, sent message w)
    end.

(** The world once a [receive()] that took [dt] ticks is over and [rest]
    is still to come. *)
Definition received (dt : N) (rest : list (N * reaction)) (w : world) : world :=
  mkWorld (connect_fault w) (send_faults w) rest (now w + Z.of_N dt)
          (uuids_drawn w) (trace w ++ [Receive]).

(** Modelled from the spec: [transport.receive()] of the scripted transport. *)
Definition receive : M dict :=
  fun w =>
    match inbound w with
    | [] => (Pending, log Receive w)
    | (dt, Deliver message) :: rest => (Return message, received dt rest w)
    | (dt, Fault e) :: rest => (Raise e, received dt rest w)
    end.

(** Modelled from the spec: [transport.shutdown()] of the scripted transport. *)
Definition shutdown : M unit :=
  fun w => (Return tt, log Shutdown w).

(** The world once one more identifier has been minted. *)
Definition drawn (w : world) : world :=
  mkWorld (connect_fault w) (send_faults w) (inbound w) (now w)
          (S (uuids_drawn w)) (trace w).

End Transport.

Declare Scope client_scope.
Delimit Scope client_scope with client.
Notation "x <- c ;; k" := (Transport.bind c (fun x => k))
  (at level 61, c at next level, right associativity) : client_scope.
Notation "c ;; k" := (Transport.bind c (fun _ => k))
  (at level 61, right associativity) : client_scope.

(** ** The client *)

Module Client.
Import Py Transport.
Local Open Scope client_scope.

(** The [id] argument of [gql_send]: the sentinel [AUTO] or a value
    ([None] included). *)
Inductive id_arg : Type :=
| AUTO
| Id (v : value).

Section GraphqlWsClient.

(** [GraphqlWsTransport.TIMEOUT], a whole number of seconds. *)
Variable TIMEOUT : Z.
(** [uuid4_hex n] is [str(uuid.uuid4().hex)] at the [n]-th draw. *)
Variable uuid4_hex : nat -> string.
(** [clock_seconds z] is the float [time.monotonic()] returns when the
    monotonic clock stands at [z] ticks. *)
Variable clock_seconds : Z -> float.

(** [time.monotonic()]. *)
Definition monotonic (w : world) : float := clock_seconds (now w).

Definition _is_keep_alive_response (response : dict) : bool :=
  py_eq (dict_get "type" VNone response) (VStr "ka").

(** What [raise GraphqlWsResponseError(message, response)] raises: the
    constructor asserts ["errors" in response] and reads
    [response["errors"]], either of which can raise in its place.  The
    message text is not kept. *)
Definition new_GraphqlWsResponseError (response : value) : exn :=
  match py_in "errors" response with
  | inr e => e
  | inl false => AssertionError
  | inl true =>
      match py_getitem "errors" response with
      | inl errors => GraphqlWsResponseError response errors
      | inr e => e
      end
  end.

Definition _response_payload (response : dict) : value + exn :=
  let payload := dict_get "payload" VNone response in
  if is_none payload then inl payload
  else match py_in "errors" payload with
       | inr e => inr e
       | inl true => inr (new_GraphqlWsResponseError payload)
       | inl false => inl payload
       end.

Definition gql_connect_and_init (connect_only : bool) : M unit :=
  connect TIMEOUT ;;
  if negb connect_only then
    send [("type", VStr "connection_init"); ("payload", VStr "")] ;;
    resp <- receive ;;
    ty <- lift (dict_getitem "type" resp) ;;
    if py_eq ty (VStr "connection_ack") then ret tt else raise AssertionError
  else ret tt.

(** [str(uuid.uuid4().hex)]. *)
Definition fresh_uuid : M value :=
  fun w => (Return (VStr (uuid4_hex (uuids_drawn w))), drawn w).

Definition gql_send (id : id_arg) (type payload : value) : M value :=
  id <- match id with
        | AUTO => fresh_uuid
        | Id v => ret v
        end ;;
  let message := [] in
  let message :=
    dict_update message (if negb (is_none id) then [("id", id)] else []) in
  let message :=
    dict_update message (if negb (is_none type) then [("type", type)] else []) in
  let message :=
    dict_update message
                (if negb (is_none payload) then [("payload", payload)] else []) in
  send message ;;
  ret id.

(** The [while True] loop of [_next_response]; every turn takes one
    [receive()], so [fuel] only has to exceed the length of the inbound
    script. *)
Fixpoint next_response_loop (fuel : nat) (wait_id : value) (w : world)
  : option (outcome dict * world) :=
  match fuel with
  | O => None
  | S fuel' =>
      match receive w with
      | (Return response, w') =>
          if _is_keep_alive_response response then
            next_response_loop fuel' wait_id w'
          else if is_none wait_id then Some (Return response, w')
          else match dict_getitem "id" response with
               | inl id =>
                   if py_eq id wait_id then Some (Return response, w')
                   else next_response_loop fuel' wait_id w'
               | inr e => Some (Raise e, w')
               end
      | (Raise e, w') => Some (Raise e, w')
      | (Pending, w') => Some (Pending, w')
      end
  end.

Definition _next_response (wait_id : value) : M dict :=
  fun w =>
    match next_response_loop (S (List.length (inbound w))) wait_id w with
    | Some r => r
    | None => (Pending, w)
    end.

Definition gql_receive (wait_id : value) : M value :=
  response <- _next_response wait_id ;;
  lift (_response_payload response).

Definition gql_start (query : string) (variables : value) : M value :=
  gql_send AUTO (VStr "start")
           (VDict [("query", VStr (Textwrap.dedent query));
                   ("variables", py_or variables (VDict []))]).

Definition gql_execute (query : string) (variables : value) : M value :=
  id <- gql_start query variables ;;
  resp <- gql_receive id ;;
  gql_receive id ;;
  ret resp.

Definition gql_subscribe (query : string) (variables : value)
           (wait_confirmation : bool) : M value :=
  id <- gql_start query variables ;;
  (if wait_confirmation then gql_receive id ;; ret tt else ret tt) ;;
  ret id.

Definition gql_finalize : M unit := shutdown.

(** The [while timeout > 0] loop of [gql_wait_response].  A turn that
    goes on has taken at least one [receive()].  The budget is a Python
    number: what is taken off it is the float
    [time.monotonic() - start], so it is a float from the second turn
    on and the subtraction rounds as binary64 does. *)
Fixpoint wait_response_loop (fuel : nat) (response_checker : value -> bool)
         (timeout : number) (w : world) : option (outcome value * world) :=
  match fuel with
  | O => None
  | S fuel' =>
      if positive timeout then
        let start := monotonic w in
        match gql_receive VNone w with
        | (Return response, w') =>
            if response_checker response then Some (Return response, w')
            else match minus_float timeout
                                   (PrimFloat.sub (monotonic w') start) with
                 | inl timeout' =>
                     wait_response_loop fuel' response_checker timeout' w'
                 | inr e => Some (Raise e, w')
                 end
        | (Raise TimeoutError, w') =>
            match minus_float timeout
                              (PrimFloat.sub (monotonic w') start) with
            | inl timeout' =>
                wait_response_loop fuel' response_checker timeout' w'
            | inr e => Some (Raise e, w')
            end
        | (Raise e, w') => Some (Raise e, w')
        | (Pending, w') => Some (Pending, w')
        end
      else Some (Raise TimeoutError, w)
  end.

Definition gql_wait_response (response_checker : value -> bool)
           (timeout : option number) : M value :=
  fun w =>
    let timeout := match timeout with
                   | None => Int TIMEOUT
                   | Some t => t
                   end in
    match wait_response_loop (S (List.length (inbound w)))
                             response_checker timeout w with
    | Some r => r
    | None => (Pending, w)
    end.

End GraphqlWsClient.

End Client.

(** ** Vocabulary of the statements *)

Module Script.
Import Py Transport Client.

(** The world after [n] more calls of [receive()]. *)
Fixpoint receive_n (n : nat) (w : world) : world :=
  match n with
  | O => w
  | S n' => receive_n n' (snd (receive w))
  end.

(** A delivery that a [_next_response] waiting on [wait_id] passes over:
    a keep-alive, or a message whose [id] is there and differs. *)
Definition passed_over (wait_id : value) (ev : N * reaction) : bool :=
  match snd ev with
  | Deliver m =>
      _is_keep_alive_response m
      || (negb (is_none wait_id)
          && match dict_lookup "id" m with
             | Some id => negb (py_eq id wait_id)
             | None => false
             end)
  | Fault _ => false
  end.

(** The bounded wait polls from the budget [f] in the world [w] down to
    the budget [f'] in the world [w']: turn after turn the budget is
    positive, [gql_receive] times out or returns a response that fails
    the checker, and the float [time.monotonic() - start] of the turn is
    taken off the budget. *)
Inductive polls (clock_seconds : Z -> float)
          (response_checker : value -> bool)
  : float -> world -> float -> world -> Prop :=
| polls_done (f : float) (w : world) :
    polls clock_seconds response_checker f w f w
| polls_turn (f : float) (w : world) (o : outcome value) (w1 : world)
             (f' : float) (w' : world) :
    PrimFloat.ltb 0 f = true ->
    gql_receive VNone w = (o, w1) ->
    o = Raise TimeoutError
    \/ (exists response,
          o = Return response /\ response_checker response = false) ->
    polls clock_seconds response_checker
          (PrimFloat.sub f (PrimFloat.sub (monotonic clock_seconds w1)
                                          (monotonic clock_seconds w)))
          w1 f' w' ->
    polls clock_seconds response_checker f w f' w'.

(** The ticks a script takes in all. *)
Definition total_ticks (script : list (N * reaction)) : Z :=
  fold_right (fun ev acc => Z.of_N (fst ev) + acc) 0 script.


(** The message [gql_start] is to send for [query] and [variables] when
    the identifier minted is [id]. *)
Definition start_message (id : value) (query : string) (variables : value)
  : dict :=
  [("id", id);
   ("type", VStr "start");
   ("payload", VDict [("query", VStr (Textwrap.dedent query));
                      ("variables", py_or variables (VDict []))])].

(** [m] is the longest common prefix of [seen]. *)
Definition longest_common (seen : list string) (m : string) : Prop :=
  (forall i, In i seen -> String.prefix m i = true)
  /\ (forall p, (forall i, In i seen -> String.prefix p i = true) ->
                String.prefix p m = true).

(** The lines [textwrap.dedent] works on: those of the text, the ones
    made of blanks only emptied. *)
Definition dedent_lines (text : string) : list string :=
  map Textwrap.clear_blank_line (Textwrap.split_lines text).

(** [margin] is the common leading indentation of [lines]: every line
    that is not empty starts its indentation with it, it is the longest
    such string, and it is empty when all lines are. *)
Definition common_indent (lines : list string) (margin : string) : Prop :=
  (forall l, In l lines -> l <> EmptyString ->
             String.prefix margin (Textwrap.leading_blanks l) = true)
  /\ (forall m,
         (exists l, In l lines /\ l <> EmptyString) ->
         (forall l, In l lines -> l <> EmptyString ->
                    String.prefix m (Textwrap.leading_blanks l) = true) ->
         String.prefix m margin = true)
  /\ ((forall l, In l lines -> l = EmptyString) -> margin = EmptyString).

(** The start message with its fields written out: the identifier, the
    text of the query as it travels, and the variables as they travel. *)
Definition start_message_with (id : value) (text : string)
           (variables : value) : dict :=
  [("id", id);
   ("type", VStr "start");
   ("payload", VDict [("query", VStr text); ("variables", variables)])].

(** The values Python takes for false. *)
Definition falsy_values : list value :=
  [VNone; VBool false; VInt 0; VStr ""; VList []; VDict []].

(** [s] is made of spaces and tabs only. *)
Definition spaces_and_tabs (s : string) : Prop :=
  forall c, In c (list_ascii_of_string s) ->
            c = " "%char \/ c = "009"%char.

(** [l] is one line of text whose first character is neither a space
    nor a tab. *)
Definition starts_flush (l : string) : Prop :=
  exists c l',
    l = String c l'
    /\ c <> " "%char /\ c <> "009"%char
    /\ ~ In "010"%char (list_ascii_of_string l).

(** A query indented with tabs, with a line of spaces in it, and what
    [textwrap.dedent] leaves of it. *)
Definition tabbed_query : string :=
  (String "009" "query {" ++ String "010"
   (String "009" "  x" ++ String "010"
    ("  " ++ String "010" (String "009" "}"))))%string.
Definition untabbed_query : string :=
  ("query {" ++ String "010"
   ("  x" ++ String "010" ("" ++ String "010" "}")))%string.

(** The messages of the worked examples. *)
Definition data_1 : value := VDict [("data", VInt 1)].
Definition message_X : dict := [("id", VStr "X"); ("payload", data_1)].
Definition message_Y : dict := [("id", VStr "Y"); ("payload", VDict [])].

Definition keep_alive : dict := [("type", VStr "ka")].

(** A world with nothing but a script of deliveries ahead. *)
Definition scripted (script : list (N * reaction)) : world :=
  mkWorld None [] script 0 0 [].

(** A source of identifiers for the worked examples: ["f"], ["ff"], ... *)
Fixpoint sample_uuid (n : nat) : string :=
  match n with
  | O => "f"
  | S n' => String "f"%char (sample_uuid n')
  end.

(** A data message and the complete message of the exchange ["f"]. *)
Definition data_f : dict :=
  [("id", VStr "f"); ("type", VStr "data"); ("payload", data_1)].
Definition complete_f : dict :=
  [("id", VStr "f"); ("type", VStr "complete")].
Definition errors_1 : dict := [("errors", VList [VStr "boom"])].
Definition failed_f : dict :=
  [("id", VStr "f"); ("type", VStr "data"); ("payload", VDict errors_1)].

(** The streams of the worked examples. *)
Definition stream_ka_ka_X : list (N * reaction) :=
  [(0%N, Deliver keep_alive); (0%N, Deliver keep_alive);
   (0%N, Deliver message_X)].
Definition stream_Y_X : list (N * reaction) :=
  [(0%N, Deliver message_Y); (0%N, Deliver message_X)].
Definition stream_Y_X_Y : list (N * reaction) :=
  stream_Y_X ++ [(0%N, Deliver message_Y)].
Definition stream_no_id : list (N * reaction) :=
  [(0%N, Deliver keep_alive); (0%N, Deliver message_Y);
   (0%N, Deliver [("type", VStr "data")])].
Definition stream_refused : list (N * reaction) :=
  [(0%N, Deliver [("type", VStr "connection_error")])].
Definition stream_exchange : list (N * reaction) :=
  [(1%N, Deliver data_f); (1%N, Deliver complete_f)].
Definition stream_failed : list (N * reaction) :=
  [(1%N, Deliver failed_f); (1%N, Deliver complete_f)].
Definition stream_slow : list (N * reaction) :=
  [(2%N, Deliver message_Y); (2%N, Fault TimeoutError);
   (2%N, Deliver message_Y); (2%N, Deliver message_Y)].

(** An indented query of three lines, and what is left of it without
    its four columns of margin. *)
Definition indented_query : string :=
  ("    query {" ++ String Textwrap.newline
   ("      x" ++ String Textwrap.newline "    }"))%string.
Definition flush_query : string :=
  ("query {" ++ String Textwrap.newline
   ("  x" ++ String Textwrap.newline "}"))%string.

(** The payload is a mapping with an [errors] key. *)
Definition has_errors_key (payload : value) : bool :=
  match payload with
  | VDict d => existsb (String.eqb "errors") (dict_keys d)
  | _ => false
  end.

(** A response whose payload is a bare number. *)
Definition message_5 : dict := [("id", VStr "X"); ("payload", VInt 5)].
Definition stream_5 : list (N * reaction) := [(0%N, Deliver message_5)].

(** A clock whose ticks are tenths of a second, and a stream of seven
    responses that take one tick each. *)
Definition tenths (z : Z) : float := PrimFloat.div (nearest_float z) 10.

(** A checker that no response satisfies. *)
Definition never (response : value) : bool := false.

(** Between [w] and [w'] the client has only called [receive()]: it
    took [consumed] off the head of the stream, one call each (and one
    more call, left [pending], when it ended suspended), the clock moved
    by the ticks of [consumed], and nothing else changed. *)
Definition took (consumed : list (N * reaction)) (pending : bool)
           (w w' : world) : Prop :=
  inbound w = consumed ++ inbound w'
  /\ now w' = now w + total_ticks consumed
  /\ trace w'
     = trace w
       ++ repeat Receive
                 (List.length consumed + (if pending then 1 else 0))%nat
  /\ connect_fault w' = connect_fault w
  /\ send_faults w' = send_faults w
  /\ uuids_drawn w' = uuids_drawn w.

(** The coroutine is left suspended. *)
Definition is_pending {A : Type} (o : outcome A) : bool :=
  match o with
  | Pending => true
  | _ => false
  end.

(** A whole session, as a caller writes it: handshake, one query,
    shutdown. *)
Definition session (TIMEOUT : Z) (uuid4_hex : nat -> string)
           (query : string) (variables : value) : M value :=
  bind (gql_connect_and_init TIMEOUT false)
       (fun _ => bind (gql_execute uuid4_hex query variables)
                      (fun resp => bind gql_finalize (fun _ => ret resp))).

(** More streams for the worked examples. *)
Definition message_no_id : dict := [("type", VStr "data"); ("payload", data_1)].
Definition stream_ka_no_id : list (N * reaction) :=
  [(1%N, Deliver keep_alive); (1%N, Deliver message_no_id);
   (1%N, Deliver message_X)].
Definition stream_Y_timeout : list (N * reaction) :=
  [(1%N, Deliver message_Y); (3%N, Fault TimeoutError);
   (1%N, Deliver message_X)].
Definition stream_ka_Y : list (N * reaction) :=
  [(1%N, Deliver keep_alive); (1%N, Deliver message_Y)].

(** An exchange ["f"] with traffic of other exchanges in between, one
    that never completes, and one whose last message carries errors. *)
Definition stream_interleaved : list (N * reaction) :=
  [(1%N, Deliver keep_alive); (1%N, Deliver data_f);
   (1%N, Deliver message_Y); (1%N, Deliver keep_alive);
   (1%N, Deliver complete_f); (1%N, Deliver message_X)].
Definition stream_incomplete : list (N * reaction) :=
  [(1%N, Deliver data_f); (1%N, Deliver message_Y)].
Definition stream_late_failure : list (N * reaction) :=
  [(1%N, Deliver data_f); (1%N, Deliver failed_f); (1%N, Deliver message_X)].

(** A subscription ["f"]: its confirmation behind other traffic, and
    one that is refused. *)
Definition stream_confirmed : list (N * reaction) :=
  [(1%N, Deliver keep_alive); (1%N, Deliver message_Y);
   (1%N, Deliver data_f); (1%N, Deliver message_X)].
Definition stream_denied : list (N * reaction) :=
  [(1%N, Deliver failed_f); (1%N, Deliver message_X)].

(** A world whose transport cannot connect, and one whose first send
    fails. *)
Definition unreachable : world :=
  mkWorld (Some (TransportError "refused")) [] [] 0 0 [].
Definition broken_pipe : world :=
  mkWorld None [Some (TransportError "closed")] [] 0 0 [].

(** Streams for the bounded wait: the awaited payload behind two turns
    of polling, a response with errors behind one, and a whole
    session. *)
Definition stream_polled : list (N * reaction) :=
  [(2%N, Deliver message_Y); (2%N, Fault TimeoutError);
   (9%N, Deliver message_X); (1%N, Deliver message_Y)].
Definition stream_poll_failed : list (N * reaction) :=
  [(2%N, Deliver message_Y); (1%N, Deliver failed_f);
   (1%N, Deliver message_X)].
Definition stream_session : list (N * reaction) :=
  [(1%N, Deliver [("type", VStr "connection_ack")]);
   (1%N, Deliver data_f); (1%N, Deliver complete_f);
   (1%N, Deliver keep_alive)].

(** The handshake messages. *)
Definition connection_init : dict :=
  [("type", VStr "connection_init"); ("payload", VStr "")].
Definition connection_ack : dict := [("type", VStr "connection_ack")].

(** A response that only satisfies the checker [is_data_1]. *)
Definition is_data_1 (response : value) : bool := py_eq response data_1.

End Script.

(** ** What [textwrap.dedent] removes *)

Module TextwrapFacts.
Import Textwrap Script.

Lemma prefix_nil (s : string) : String.prefix EmptyString s = true.
Proof. destruct s; reflexivity. Qed.

Lemma prefix_cons (a b : ascii) (s t : string) :
  String.prefix (String a s) (String b t) = Ascii.eqb a b && String.prefix s t.
Proof.
  simpl. destruct (ascii_dec a b) as [->|N].
  - rewrite Ascii.eqb_refl. reflexivity.
  - apply Ascii.eqb_neq in N. rewrite N. reflexivity.
Qed.

Lemma prefix_refl (s : string) : String.prefix s s = true.
Proof.
  induction s as [|a s IH]; [reflexivity|].
  rewrite prefix_cons, Ascii.eqb_refl. exact IH.
Qed.

Lemma prefix_trans :
  forall s t u : string,
    String.prefix s t = true -> String.prefix t u = true ->
    String.prefix s u = true.
Proof.
  induction s as [|a s IH]; intros t u H1 H2; [apply prefix_nil|].
  destruct t as [|b t]; [discriminate|].
  destruct u as [|c u]; [discriminate|].
  rewrite prefix_cons in *.
  apply andb_true_iff in H1. destruct H1 as [A1 B1].
  apply andb_true_iff in H2. destruct H2 as [A2 B2].
  apply Ascii.eqb_eq in A1. apply Ascii.eqb_eq in A2. subst.
  rewrite Ascii.eqb_refl. simpl. eapply IH; eassumption.
Qed.

Lemma split_lines_nonempty (text : string) : split_lines text <> [].
Proof.
  destruct text as [|c text]; simpl; [discriminate|].
  destruct (Ascii.eqb c newline); [discriminate|].
  destruct (split_lines text); discriminate.
Qed.

(** Splitting into lines loses nothing. *)
Lemma join_split_lines (text : string) :
  join_lines (split_lines text) = text.
Proof.
  induction text as [|c text IH]; [reflexivity|].
  simpl split_lines.
  pose proof (split_lines_nonempty text) as NE.
  destruct (Ascii.eqb c newline) eqn:Q.
  - apply Ascii.eqb_eq in Q. subst c.
    destruct (split_lines text) as [|l ls]; [congruence|].
    change (join_lines (EmptyString :: l :: ls))
      with (String newline (join_lines (l :: ls))).
    rewrite IH. reflexivity.
  - destruct (split_lines text) as [|l ls]; [congruence|].
    destruct ls as [|l' ls].
    + simpl in *. rewrite IH. reflexivity.
    + change (join_lines (String c l :: l' :: ls))
        with (String c (l ++ String newline (join_lines (l' :: ls))))%string.
      change (join_lines (l :: l' :: ls))
        with (l ++ String newline (join_lines (l' :: ls)))%string in IH.
      rewrite IH. reflexivity.
Qed.

Lemma prefix_antisym :
  forall s t : string,
    String.prefix s t = true -> String.prefix t s = true -> s = t.
Proof.
  induction s as [|a s IH]; intros [|b t] H1 H2; try discriminate;
    [reflexivity|].
  rewrite prefix_cons in H1, H2.
  apply andb_true_iff in H1. destruct H1 as [A1 B1].
  apply andb_true_iff in H2. destruct H2 as [_ B2].
  apply Ascii.eqb_eq in A1. subst b.
  f_equal. apply IH; assumption.
Qed.

Lemma cut_at_mismatch_left :
  forall m i : string, String.prefix (cut_at_mismatch m i) m = true.
Proof.
  induction m as [|x m IH]; intro i; [reflexivity|].
  destruct i as [|y i]; simpl cut_at_mismatch; [apply prefix_refl|].
  destruct (Ascii.eqb x y); [|reflexivity].
  rewrite prefix_cons, Ascii.eqb_refl. apply IH.
Qed.

Lemma cut_at_mismatch_right :
  forall m i : string,
    String.prefix m i = false -> String.prefix i m = false ->
    String.prefix (cut_at_mismatch m i) i = true.
Proof.
  induction m as [|x m IH]; intros i H1 H2.
  - rewrite prefix_nil in H1. discriminate.
  - destruct i as [|y i]; [discriminate|].
    rewrite prefix_cons in H1, H2.
    simpl cut_at_mismatch.
    destruct (Ascii.eqb x y) eqn:Q; [|reflexivity].
    apply Ascii.eqb_eq in Q. subst y.
    rewrite Ascii.eqb_refl in *. simpl in H1, H2.
    rewrite prefix_cons, Ascii.eqb_refl. apply IH; assumption.
Qed.

Lemma cut_at_mismatch_longest :
  forall p m i : string,
    String.prefix p m = true -> String.prefix p i = true ->
    String.prefix p (cut_at_mismatch m i) = true.
Proof.
  induction p as [|c p IH]; intros m i H1 H2; [apply prefix_nil|].
  destruct m as [|x m]; [discriminate|].
  destruct i as [|y i]; [discriminate|].
  rewrite prefix_cons in H1, H2.
  apply andb_true_iff in H1. destruct H1 as [A1 B1].
  apply andb_true_iff in H2. destruct H2 as [A2 B2].
  apply Ascii.eqb_eq in A1. apply Ascii.eqb_eq in A2. subst.
  simpl cut_at_mismatch. rewrite Ascii.eqb_refl.
  rewrite prefix_cons, Ascii.eqb_refl. apply IH; assumption.
Qed.

Lemma narrow_longest_common (seen : list string) (m indent : string) :
  longest_common seen m ->
  exists m', narrow (Some m) indent = Some m'
             /\ longest_common (seen ++ [indent]) m'.
Proof.
  intros [C L].
  unfold narrow.
  destruct (String.prefix m indent) eqn:P1;
    [|destruct (String.prefix indent m) eqn:P2];
    eexists; (split; [reflexivity|]); split.
  - intros i Hi. apply in_app_or in Hi. destruct Hi as [Hi|[<-|[]]]; auto.
  - intros p Hp. apply L. intros i Hi. apply Hp. apply in_or_app. auto.
  - intros i Hi. apply in_app_or in Hi. destruct Hi as [Hi|[<-|[]]].
    + eapply prefix_trans; [exact P2 | auto].
    + apply prefix_refl.
  - intros p Hp. apply Hp. apply in_or_app. right. left. reflexivity.
  - intros i Hi. apply in_app_or in Hi. destruct Hi as [Hi|[<-|[]]].
    + eapply prefix_trans; [apply cut_at_mismatch_left | auto].
    + apply cut_at_mismatch_right; assumption.
  - intros p Hp. apply cut_at_mismatch_longest.
    + apply L. intros i Hi. apply Hp. apply in_or_app. auto.
    + apply Hp. apply in_or_app. right. left. reflexivity.
Qed.

Lemma fold_narrow_longest_common :
  forall (l seen : list string) (m : string),
    longest_common seen m ->
    exists m', fold_left narrow l (Some m) = Some m'
               /\ longest_common (seen ++ l) m'.
Proof.
  induction l as [|i l IH]; intros seen m H.
  - exists m. rewrite app_nil_r. auto.
  - destruct (narrow_longest_common seen m i H) as [m1 [E1 H1]].
    destruct (IH _ _ H1) as [m' [E' H']].
    exists m'. cbn [fold_left]. rewrite E1, E'.
    rewrite <- app_assoc in H'. auto.
Qed.

(** The margin the loop ends with is the longest common prefix of the
    indentations; there is none when no line has an indentation. *)
Lemma margin_of_longest_common (lines : list string) :
  match margin_of lines with
  | Some m => indents lines <> [] /\ longest_common (indents lines) m
  | None => indents lines = []
  end.
Proof.
  unfold margin_of.
  destruct (indents lines) as [|i l]; [reflexivity|].
  cbn [fold_left]. change (narrow None i) with (Some i).
  assert (H : longest_common [i] i).
  { split.
    - intros j [<-|[]]. apply prefix_refl.
    - intros p Hp. apply Hp. left. reflexivity. }
  destruct (fold_narrow_longest_common l [i] i H) as [m' [E' H']].
  rewrite E'. split; [discriminate | exact H'].
Qed.

Lemma in_indents (lines : list string) (i : string) :
  In i (indents lines)
  <-> exists l, In l lines /\ l <> EmptyString /\ i = leading_blanks l.
Proof.
  unfold indents. rewrite in_map_iff.
  split.
  - intros [l [E Hl]]. apply filter_In in Hl. destruct Hl as [Hl N].
    exists l. repeat split; auto.
    intro Z. subst l. discriminate.
  - intros [l [Hl [N E]]]. exists l. split; [auto|].
    apply filter_In. split; [exact Hl|].
    destruct l; [congruence | reflexivity].
Qed.

Lemma leading_blanks_prefix (l : string) :
  String.prefix (leading_blanks l) l = true.
Proof.
  induction l as [|c l IH]; [reflexivity|].
  simpl leading_blanks.
  destruct (is_blank c); [|reflexivity].
  rewrite prefix_cons, Ascii.eqb_refl. exact IH.
Qed.

Lemma drop_chars_nil (n : nat) : drop_chars n EmptyString = EmptyString.
Proof. destruct n; reflexivity. Qed.

(** [dedent] takes the common indentation off every line. *)
Lemma dedent_common_indent (text : string) :
  exists margin,
    common_indent (dedent_lines text) margin
    /\ dedent text
       = join_lines (map (drop_chars (String.length margin))
                         (dedent_lines text)).
Proof.
  unfold dedent. fold (dedent_lines text).
  pose proof (margin_of_longest_common (dedent_lines text)) as H.
  destruct (margin_of (dedent_lines text)) as [m|].
  - destruct H as [NE [C L]].
    exists m.
    assert (CI : common_indent (dedent_lines text) m).
    { split; [|split].
      - intros l Hl N. apply C. apply in_indents. eauto.
      - intros p _ Hp. apply L. intros i Hi.
        apply in_indents in Hi. destruct Hi as [l [Hl [N ->]]]. auto.
      - intro All. exfalso. apply NE.
        destruct (indents (dedent_lines text)) as [|i l] eqn:E;
          [reflexivity|].
        assert (Hi : In i (indents (dedent_lines text)))
          by (rewrite E; left; reflexivity).
        apply in_indents in Hi. destruct Hi as [l0 [Hl [N _]]].
        elim N. auto. }
    split; [exact CI|].
    destruct m as [|c m].
    + simpl. rewrite map_id. reflexivity.
    + f_equal. apply map_ext_in.
      intros l Hl. unfold strip_margin.
      destruct l as [|a l]; [reflexivity|].
      destruct CI as [C' _].
      rewrite (prefix_trans _ _ _ (C' _ Hl ltac:(discriminate))
                            (leading_blanks_prefix _)).
      reflexivity.
  - exists EmptyString.
    split.
    + split; [|split].
      * intros l Hl N. apply prefix_nil.
      * intros p [l [Hl N]] _. exfalso.
        assert (Hi : In (leading_blanks l) (indents (dedent_lines text)))
          by (apply in_indents; eauto).
        rewrite H in Hi. exact Hi.
      * reflexivity.
    + simpl. rewrite map_id. reflexivity.
Qed.

Lemma is_blank_iff (c : ascii) :
  is_blank c = true <-> c = " "%char \/ c = "009"%char.
Proof.
  unfold is_blank, tab. rewrite orb_true_iff, !Ascii.eqb_eq. reflexivity.
Qed.

Lemma all_blank_spaces_and_tabs (b : string) :
  spaces_and_tabs b -> all_blank b = true.
Proof.
  induction b as [|c b IH]; intro H; [reflexivity|].
  simpl. apply andb_true_iff. split.
  - apply is_blank_iff. apply H. left. reflexivity.
  - apply IH. intros x Hx. apply H. right. exact Hx.
Qed.

Lemma spaces_and_tabs_one_line (b : string) :
  spaces_and_tabs b -> ~ In "010"%char (list_ascii_of_string b).
Proof.
  intros H I. destruct (H _ I); discriminate.
Qed.

Lemma split_lines_one_line (l : string) :
  ~ In "010"%char (list_ascii_of_string l) -> split_lines l = [l].
Proof.
  induction l as [|c l IH]; intro H; [reflexivity|].
  simpl.
  destruct (Ascii.eqb c newline) eqn:Q.
  - apply Ascii.eqb_eq in Q. elim H. left. exact Q.
  - rewrite IH; [reflexivity|].
    intro I. apply H. right. exact I.
Qed.

Lemma split_lines_first_line (a t : string) :
  ~ In "010"%char (list_ascii_of_string a) ->
  split_lines (a ++ String newline t) = a :: split_lines t.
Proof.
  induction a as [|c a IH]; intro H.
  - reflexivity.
  - simpl.
    destruct (Ascii.eqb c newline) eqn:Q.
    + apply Ascii.eqb_eq in Q. elim H. left. exact Q.
    + rewrite IH; [reflexivity|].
      intro I. apply H. right. exact I.
Qed.

Lemma leading_blanks_indented (m l : string) :
  spaces_and_tabs m -> starts_flush l ->
  leading_blanks (m ++ l) = m.
Proof.
  intros Hm [c [l' [-> [N1 [N2 _]]]]].
  induction m as [|x m IH].
  - simpl.
    destruct (is_blank c) eqn:B; [|reflexivity].
    apply is_blank_iff in B. destruct B; contradiction.
  - simpl.
    assert (B : is_blank x = true)
      by (apply is_blank_iff; apply Hm; left; reflexivity).
    rewrite B, IH; [reflexivity|].
    intros y Hy. apply Hm. right. exact Hy.
Qed.

Lemma all_blank_indented (m l : string) :
  starts_flush l -> all_blank (m ++ l) = false.
Proof.
  intros [c [l' [-> [N1 [N2 _]]]]].
  induction m as [|x m IH]; simpl.
  - destruct (is_blank c) eqn:B; [|reflexivity].
    apply is_blank_iff in B. destruct B; contradiction.
  - rewrite IH. apply andb_false_r.
Qed.

Lemma prefix_append (m l : string) : String.prefix m (m ++ l) = true.
Proof.
  induction m as [|x m IH]; [apply prefix_nil|].
  simpl String.append. rewrite prefix_cons, Ascii.eqb_refl. exact IH.
Qed.

Lemma drop_chars_append (m l : string) :
  drop_chars (String.length m) (m ++ l) = l.
Proof.
  induction m as [|x m IH]; [destruct l; reflexivity | exact IH].
Qed.

(** A line of spaces and tabs above an indented line: the first comes
    out empty, the second without its indentation. *)
Lemma dedent_blank_then_indented (b m l : string) :
  spaces_and_tabs b -> spaces_and_tabs m -> starts_flush l ->
  dedent (b ++ String newline (m ++ l)) = String newline l.
Proof.
  intros Hb Hm Hl.
  assert (One : ~ In "010"%char (list_ascii_of_string (m ++ l))).
  { destruct Hl as [c [l' [E [_ [_ Nl]]]]].
    clear E. induction m as [|x m IH]; [exact Nl|].
    simpl. intros [Q|I].
    - destruct (Hm x (or_introl eq_refl)); subst x; discriminate.
    - apply IH; [|exact I].
      intros y Hy. apply Hm. right. exact Hy. }
  assert (Full : (m ++ l)%string <> EmptyString).
  { destruct Hl as [c [l' [-> _]]]. destruct m; discriminate. }
  assert (Lines : map clear_blank_line
                      (split_lines (b ++ String newline (m ++ l)))
                  = [EmptyString; (m ++ l)%string]).
  { rewrite (split_lines_first_line b _ (spaces_and_tabs_one_line b Hb)).
    rewrite (split_lines_one_line _ One).
    simpl map. unfold clear_blank_line.
    rewrite (all_blank_spaces_and_tabs b Hb), (all_blank_indented m l Hl).
    reflexivity. }
  assert (Margin : margin_of [EmptyString; (m ++ l)%string] = Some m).
  { unfold margin_of, indents. simpl filter.
    destruct (String.eqb (m ++ l) EmptyString) eqn:Q;
      [apply String.eqb_eq in Q; contradiction|].
    simpl map. rewrite (leading_blanks_indented m l Hm Hl).
    reflexivity. }
  unfold dedent. cbv zeta. rewrite Lines, Margin.
  destruct m as [|x m]; [reflexivity|].
  simpl map. unfold strip_margin.
  pose proof (prefix_append (String x m) l) as P.
  pose proof (drop_chars_append (String x m) l) as D.
  simpl String.append in P, D.
  rewrite P, D.
  reflexivity.
Qed.

End TextwrapFacts.

(** ** Running the monad *)

Module MonadFacts.
Import Py Transport.

Lemma bind_return {A B : Type} (c : M A) (k : A -> M B)
      (w w' : world) (a : A) :
  c w = (Return a, w') -> bind c k w = k a w'.
Proof. intro H. unfold bind. rewrite H. reflexivity. Qed.

Lemma bind_raise {A B : Type} (c : M A) (k : A -> M B)
      (w w' : world) (e : exn) :
  c w = (Raise e, w') -> bind c k w = (Raise e, w').
Proof. intro H. unfold bind. rewrite H. reflexivity. Qed.

Lemma bind_pending {A B : Type} (c : M A) (k : A -> M B) (w w' : world) :
  c w = (Pending, w') -> bind c k w = (Pending, w').
Proof. intro H. unfold bind. rewrite H. reflexivity. Qed.

Lemma connect_ok (timeout : Z) (w : world) :
  connect_fault w = None ->
  connect timeout w = (Return tt, log (Connect timeout) w).
Proof. intro H. unfold connect. rewrite H. reflexivity. Qed.

Lemma send_outcome (message : dict) (w : world) :
  send message w
  = (match hd None (send_faults w) with
     | None => Return tt
     | Some e => Raise e
     end, sent message w).
Proof.
  unfold send. destruct (send_faults w) as [|[e|] l]; reflexivity.
Qed.

Lemma send_ok (message : dict) (w : world) :
  hd None (send_faults w) = None ->
  send message w = (Return tt, sent message w).
Proof. intro H. rewrite send_outcome, H. reflexivity. Qed.

Lemma receive_return (w : world) (m : dict) (w' : world) :
  receive w = (Return m, w') ->
  exists dt rest,
    inbound w = (dt, Deliver m) :: rest /\ w' = received dt rest w.
Proof.
  unfold receive.
  destruct (inbound w) as [|[dt [m0|e]] rest]; intro H; inversion H; subst.
  exists dt, rest. auto.
Qed.

Lemma receive_deliver (w : world) (dt : N) (m : dict)
      (rest : list (N * reaction)) :
  inbound w = (dt, Deliver m) :: rest ->
  receive w = (Return m, received dt rest w).
Proof. intro H. unfold receive. rewrite H. reflexivity. Qed.

End MonadFacts.

(** ** The loops run to their end *)

Module LoopFacts.
Import Py Transport Client.

Lemma receive_inbound (w : world) (o : outcome dict) (w' : world) :
  receive w = (o, w') ->
  o <> Pending ->
  List.length (inbound w) = S (List.length (inbound w')).
Proof.
  unfold receive.
  destruct (inbound w) as [|[dt [m|e]] rest] eqn:E; intros H Hp;
    inversion H; subst; simpl; congruence.
Qed.

Lemma next_response_loop_fuel (wait_id : value) :
  forall (fuel : nat) (w : world),
    (List.length (inbound w) < fuel)%nat ->
    next_response_loop fuel wait_id w
    = next_response_loop (S (List.length (inbound w))) wait_id w.
Proof.
  induction fuel as [|fuel IH]; intros w Hlt; [lia|].
  simpl.
  destruct (receive w) as [[response| e |] w'] eqn:R; try reflexivity.
  assert (L : List.length (inbound w) = S (List.length (inbound w')))
    by (eapply receive_inbound; [exact R | discriminate]).
  rewrite L.
  assert (Hlt' : (List.length (inbound w') < fuel)%nat) by lia.
  rewrite (IH w' Hlt').
  reflexivity.
Qed.

Lemma next_response_loop_runs (wait_id : value) :
  forall (fuel : nat) (w : world),
    (List.length (inbound w) < fuel)%nat ->
    next_response_loop fuel wait_id w <> None.
Proof.
  induction fuel as [|fuel IH]; intros w Hlt; [lia|].
  simpl.
  destruct (receive w) as [[response| e |] w'] eqn:R; try discriminate.
  assert (L : List.length (inbound w) = S (List.length (inbound w')))
    by (eapply receive_inbound; [exact R | discriminate]).
  assert (Hlt' : (List.length (inbound w') < fuel)%nat) by lia.
  specialize (IH w' Hlt').
  destruct (_is_keep_alive_response response); [exact IH|].
  destruct (is_none wait_id); [discriminate|].
  destruct (dict_getitem "id" response) as [id|e]; [|discriminate].
  destruct (py_eq id wait_id); [discriminate | exact IH].
Qed.

(** [_next_response], one turn of its loop at a time. *)
Lemma _next_response_turn (wait_id : value) (w : world) :
  _next_response wait_id w
  = match receive w with
    | (Return response, w') =>
        if _is_keep_alive_response response then _next_response wait_id w'
        else if is_none wait_id then (Return response, w')
        else match dict_getitem "id" response with
             | inl id =>
                 if py_eq id wait_id then (Return response, w')
                 else _next_response wait_id w'
             | inr e => (Raise e, w')
             end
    | (Raise e, w') => (Raise e, w')
    | (Pending, w') => (Pending, w')
    end.
Proof.
  unfold _next_response at 1.
  simpl.
  destruct (receive w) as [[response| e |] w'] eqn:R; try reflexivity.
  assert (L : List.length (inbound w) = S (List.length (inbound w')))
    by (eapply receive_inbound; [exact R | discriminate]).
  rewrite L.
  unfold _next_response.
  pose proof (next_response_loop_runs wait_id _ w' (Nat.lt_succ_diag_r _))
    as Hrun.
  destruct (next_response_loop (S (List.length (inbound w'))) wait_id w')
    as [r|]; [|congruence].
  destruct (_is_keep_alive_response response); [reflexivity|].
  destruct (is_none wait_id); [reflexivity|].
  destruct (dict_getitem "id" response) as [id|e]; [|reflexivity].
  destruct (py_eq id wait_id); reflexivity.
Qed.

(** Induction on what is left of the inbound script. *)
Lemma inbound_ind (P : world -> Prop) :
  (forall w,
      (forall w', (List.length (inbound w') < List.length (inbound w))%nat ->
                  P w') ->
      P w) ->
  forall w, P w.
Proof.
  intros step w.
  remember (List.length (inbound w)) as n eqn:En.
  revert w En.
  induction n as [n IH] using lt_wf_ind.
  intros w En.
  apply step.
  intros w' Hlt.
  apply (IH (List.length (inbound w'))); [lia | reflexivity].
Qed.

(** A [_next_response] that ends has taken messages off the script, and
    the clock has not gone back. *)
Lemma _next_response_inbound (wait_id : value) :
  forall (w : world) (o : outcome dict) (w' : world),
    _next_response wait_id w = (o, w') ->
    o <> Pending ->
    (List.length (inbound w') < List.length (inbound w))%nat
    /\ now w <= now w'.
Proof.
  intro w.
  induction w as [w IH] using inbound_ind.
  intros o w' H Hp.
  rewrite _next_response_turn in H.
  destruct (receive w) as [[response| e |] w1] eqn:R.
  - assert (L : List.length (inbound w) = S (List.length (inbound w1)))
      by (eapply receive_inbound; [exact R | discriminate]).
    assert (T : now w <= now w1).
    { unfold receive in R.
      destruct (inbound w) as [|[dt [m|e]] rest]; inversion R; subst; simpl;
        lia. }
    assert (Hrec : forall o w', _next_response wait_id w1 = (o, w') ->
                                o <> Pending ->
                                (List.length (inbound w')
                                 < List.length (inbound w))%nat
                                /\ now w <= now w').
    { intros o2 w2 H2 Hp2.
      destruct (IH w1 ltac:(lia) o2 w2 H2 Hp2) as [A B].
      split; lia. }
    destruct (_is_keep_alive_response response); [eauto|].
    destruct (is_none wait_id).
    { inversion H; subst. split; lia. }
    destruct (dict_getitem "id" response) as [id|e].
    + destruct (py_eq id wait_id); [|eauto].
      inversion H; subst. split; lia.
    + inversion H; subst. split; lia.
  - inversion H; subst.
    assert (L : List.length (inbound w) = S (List.length (inbound w')))
      by (eapply receive_inbound; [exact R | discriminate]).
    unfold receive in R.
    destruct (inbound w) as [|[dt [m|e']] rest]; inversion R; subst; simpl in *;
      split; lia.
  - inversion H; subst. congruence.
Qed.

Lemma gql_receive_inbound (wait_id : value) (w : world)
      (o : outcome value) (w' : world) :
  gql_receive wait_id w = (o, w') ->
  o <> Pending ->
  (List.length (inbound w') < List.length (inbound w))%nat
  /\ now w <= now w'.
Proof.
  unfold gql_receive, bind.
  destruct (_next_response wait_id w) as [[response| e |] w1] eqn:N;
    intros H Hp.
  - assert (w1 = w').
    { unfold lift in H.
      destruct (_response_payload response); inversion H; reflexivity. }
    subst w1.
    eapply _next_response_inbound; [exact N | discriminate].
  - inversion H; subst.
    eapply _next_response_inbound; [exact N | discriminate].
  - inversion H; subst. congruence.
Qed.

Lemma wait_response_loop_fuel (clock_seconds : Z -> float)
      (response_checker : value -> bool) :
  forall (fuel fuel' : nat) (timeout : number) (w : world),
    (List.length (inbound w) < fuel)%nat ->
    (List.length (inbound w) < fuel')%nat ->
    wait_response_loop clock_seconds fuel response_checker timeout w
    = wait_response_loop clock_seconds fuel' response_checker timeout w.
Proof.
  induction fuel as [|fuel IH]; intros [|fuel'] timeout w Hlt Hlt'; try lia.
  simpl.
  destruct (positive timeout); [|reflexivity].
  destruct (gql_receive VNone w) as [[response| e |] w'] eqn:R;
    try reflexivity.
  - destruct (gql_receive_inbound _ _ _ _ R ltac:(discriminate)) as [L _].
    destruct (response_checker response); [reflexivity|].
    destruct (minus_float timeout _); [|reflexivity].
    apply IH; lia.
  - destruct (gql_receive_inbound _ _ _ _ R ltac:(discriminate)) as [L _].
    destruct e; try reflexivity.
    destruct (minus_float timeout _); [|reflexivity].
    apply IH; lia.
Qed.

Lemma wait_response_loop_runs (clock_seconds : Z -> float)
      (response_checker : value -> bool) :
  forall (fuel : nat) (timeout : number) (w : world),
    (List.length (inbound w) < fuel)%nat ->
    wait_response_loop clock_seconds fuel response_checker timeout w <> None.
Proof.
  induction fuel as [|fuel IH]; intros timeout w Hlt; [lia|].
  simpl.
  destruct (positive timeout); [|discriminate].
  destruct (gql_receive VNone w) as [[response| e |] w'] eqn:R;
    try discriminate.
  - destruct (gql_receive_inbound _ _ _ _ R ltac:(discriminate)) as [L _].
    destruct (response_checker response); [discriminate|].
    destruct (minus_float timeout _); [|discriminate].
    apply IH. lia.
  - destruct (gql_receive_inbound _ _ _ _ R ltac:(discriminate)) as [L _].
    destruct e; try discriminate.
    destruct (minus_float timeout _); [|discriminate].
    apply IH. lia.
Qed.

(** Any fuel above the length of the script gives the loop its result. *)
Lemma next_response_loop_enough (wait_id : value) (fuel : nat) (w : world) :
  (List.length (inbound w) < fuel)%nat ->
  next_response_loop fuel wait_id w = Some (_next_response wait_id w).
Proof.
  intro Hlt.
  rewrite next_response_loop_fuel by exact Hlt.
  unfold _next_response.
  pose proof (next_response_loop_runs wait_id _ w (Nat.lt_succ_diag_r _))
    as Hrun.
  destruct (next_response_loop (S (List.length (inbound w))) wait_id w);
    congruence.
Qed.

Lemma wait_response_loop_enough (TIMEOUT : Z) (clock_seconds : Z -> float)
      (response_checker : value -> bool) (fuel : nat) (timeout : number)
      (w : world) :
  (List.length (inbound w) < fuel)%nat ->
  wait_response_loop clock_seconds fuel response_checker timeout w
  = Some (gql_wait_response TIMEOUT clock_seconds response_checker
                            (Some timeout) w).
Proof.
  intro Hlt.
  rewrite (wait_response_loop_fuel _ _ _ (S (List.length (inbound w))))
    by lia.
  unfold gql_wait_response.
  pose proof (wait_response_loop_runs clock_seconds response_checker _
                                      timeout w (Nat.lt_succ_diag_r _))
    as Hrun.
  destruct (wait_response_loop clock_seconds (S (List.length (inbound w)))
                               response_checker timeout w); congruence.
Qed.

(** [gql_wait_response], one turn of its loop at a time. *)
Lemma gql_wait_response_turn (TIMEOUT : Z) (clock_seconds : Z -> float)
      (response_checker : value -> bool) (timeout : number) (w : world) :
  gql_wait_response TIMEOUT clock_seconds response_checker (Some timeout) w
  = if positive timeout then
      match gql_receive VNone w with
      | (Return response, w') =>
          if response_checker response then (Return response, w')
          else match minus_float
                       timeout
                       (PrimFloat.sub (monotonic clock_seconds w')
                                      (monotonic clock_seconds w)) with
               | inl timeout' =>
                   gql_wait_response TIMEOUT clock_seconds response_checker
                                     (Some timeout') w'
               | inr e => (Raise e, w')
               end
      | (Raise TimeoutError, w') =>
          match minus_float
                  timeout
                  (PrimFloat.sub (monotonic clock_seconds w')
                                 (monotonic clock_seconds w)) with
          | inl timeout' =>
              gql_wait_response TIMEOUT clock_seconds response_checker
                                (Some timeout') w'
          | inr e => (Raise e, w')
          end
      | (Raise e, w') => (Raise e, w')
      | (Pending, w') => (Pending, w')
      end
    else (Raise TimeoutError, w).
Proof.
  unfold gql_wait_response at 1.
  simpl.
  destruct (positive timeout); [|reflexivity].
  assert (K : forall t w',
             (List.length (inbound w') < List.length (inbound w))%nat ->
             wait_response_loop clock_seconds (List.length (inbound w))
                                response_checker t w'
             = Some (gql_wait_response TIMEOUT clock_seconds response_checker
                                       (Some t) w')).
  { intros t w' Hlt. apply wait_response_loop_enough. exact Hlt. }
  destruct (gql_receive VNone w) as [[response| e |] w'] eqn:R;
    try reflexivity.
  - destruct (gql_receive_inbound _ _ _ _ R ltac:(discriminate)) as [L _].
    destruct (response_checker response); [reflexivity|].
    destruct (minus_float timeout _); [|reflexivity].
    rewrite K by exact L. reflexivity.
  - destruct (gql_receive_inbound _ _ _ _ R ltac:(discriminate)) as [L _].
    destruct e; try reflexivity.
    destruct (minus_float timeout _); [|reflexivity].
    rewrite K by exact L. reflexivity.
Qed.

End LoopFacts.

(** ** The receive loop *)

Module ReceiveFacts.
Import Py Transport Client Script LoopFacts.

Lemma _next_response_not_keep_alive (wait_id : value) :
  forall (w : world) (r : dict) (w' : world),
    _next_response wait_id w = (Return r, w') ->
    _is_keep_alive_response r = false.
Proof.
  intro w.
  induction w as [w IH] using inbound_ind.
  intros r w' H.
  rewrite _next_response_turn in H.
  destruct (receive w) as [[response| e |] w1] eqn:R; try discriminate.
  assert (L : List.length (inbound w) = S (List.length (inbound w1)))
    by (eapply receive_inbound; [exact R | discriminate]).
  assert (Hlt : (List.length (inbound w1) < List.length (inbound w))%nat)
    by lia.
  destruct (_is_keep_alive_response response) eqn:K; [eauto|].
  destruct (is_none wait_id); [congruence|].
  destruct (dict_getitem "id" response) as [id|e]; [|discriminate].
  destruct (py_eq id wait_id); [congruence | eauto].
Qed.

(** What [_next_response] returns is a message the stream delivered. *)
Lemma _next_response_returns_delivered (wait_id : value) :
  forall (w : world) (r : dict) (w' : world),
    _next_response wait_id w = (Return r, w') ->
    exists dt, In (dt, Deliver r) (inbound w).
Proof.
  intro w.
  induction w as [w IH] using inbound_ind.
  intros r w' H.
  rewrite _next_response_turn in H.
  destruct (receive w) as [[response| e |] w1] eqn:R; try discriminate.
  destruct (MonadFacts.receive_return _ _ _ R) as [dt [rest [E ->]]].
  assert (Later : _next_response wait_id (received dt rest w) = (Return r, w')
                  -> exists dt', In (dt', Deliver r) (inbound w)).
  { intro H'.
    destruct (IH (received dt rest w)
                 ltac:(rewrite E; simpl; lia) r w' H') as [dt' I].
    exists dt'. rewrite E. right. exact I. }
  assert (Here : response = r -> exists dt', In (dt', Deliver r) (inbound w)).
  { intros <-. exists dt. rewrite E. left. reflexivity. }
  destruct (_is_keep_alive_response response); [auto|].
  destruct (is_none wait_id); [inversion H; auto|].
  destruct (dict_getitem "id" response) as [id|e]; [|discriminate].
  destruct (py_eq id wait_id); [inversion H; auto | auto].
Qed.

Lemma gql_receive_returns_delivered (wait_id : value) (w : world)
      (payload : value) (w' : world) :
  gql_receive wait_id w = (Return payload, w') ->
  exists dt m,
    In (dt, Deliver m) (inbound w) /\ _response_payload m = inl payload.
Proof.
  unfold gql_receive, bind.
  destruct (_next_response wait_id w) as [[r| e |] w1] eqn:N;
    try discriminate.
  unfold lift.
  destruct (_response_payload r) as [p|e] eqn:P; [|discriminate].
  intro H. inversion H; subst.
  destruct (_next_response_returns_delivered _ _ _ _ N) as [dt I].
  exists dt, r. auto.
Qed.

Lemma receive_n_inbound :
  forall (pre rest : list (N * reaction)) (w : world),
    inbound w = pre ++ rest ->
    inbound (receive_n (List.length pre) w) = rest
    /\ trace (receive_n (List.length pre) w)
       = trace w ++ repeat Receive (List.length pre)
    /\ now (receive_n (List.length pre) w) = now w + total_ticks pre.
Proof.
  induction pre as [|[dt r] pre IH]; intros rest w E; simpl.
  - rewrite app_nil_r, Z.add_0_r. auto.
  - assert (R : snd (receive w) = received dt (pre ++ rest) w).
    { unfold receive. rewrite E. simpl. destruct r; reflexivity. }
    rewrite R.
    assert (E' : inbound (received dt (pre ++ rest) w) = pre ++ rest)
      by reflexivity.
    destruct (IH rest _ E') as [A [B C]].
    rewrite A, B, C. simpl.
    rewrite <- app_assoc. simpl.
    repeat split. lia.
Qed.

(** A run of deliveries that are passed over is taken off the stream
    one [receive()] each, and the wait goes on behind it. *)
Lemma _next_response_passes_over (wait_id : value) :
  forall (pre rest : list (N * reaction)) (w : world),
    inbound w = pre ++ rest ->
    forallb (passed_over wait_id) pre = true ->
    _next_response wait_id w
    = _next_response wait_id (receive_n (List.length pre) w).
Proof.
  induction pre as [|[dt r] pre IH]; intros rest w E F; [reflexivity|].
  simpl in F. apply andb_true_iff in F. destruct F as [F1 F2].
  rewrite _next_response_turn.
  simpl. unfold receive. rewrite E. simpl.
  unfold passed_over in F1. simpl in F1.
  destruct r as [m|e]; [|discriminate].
  simpl.
  assert (E' : inbound (received dt (pre ++ rest) w) = pre ++ rest)
    by reflexivity.
  destruct (_is_keep_alive_response m); [exact (IH rest _ E' F2)|].
  simpl in F1.
  destruct (is_none wait_id); [discriminate|].
  unfold dict_getitem.
  destruct (dict_lookup "id" m) as [id|]; [|discriminate].
  simpl in F1.
  destruct (py_eq id wait_id); [discriminate|].
  exact (IH rest _ E' F2).
Qed.

(** The first delivery decides a turn of the loop. *)
Lemma _next_response_head (wait_id : value) (w : world)
      (dt : N) (m : dict) (rest : list (N * reaction)) :
  inbound w = (dt, Deliver m) :: rest ->
  _next_response wait_id w
  = if _is_keep_alive_response m then
      _next_response wait_id (received dt rest w)
    else if is_none wait_id then (Return m, received dt rest w)
    else match dict_getitem "id" m with
         | inl id =>
             if py_eq id wait_id then (Return m, received dt rest w)
             else _next_response wait_id (received dt rest w)
         | inr e => (Raise e, received dt rest w)
         end.
Proof.
  intro E.
  rewrite _next_response_turn.
  unfold receive. rewrite E. reflexivity.
Qed.

Lemma _next_response_keep_alive (wait_id : value) (w : world)
      (dt : N) (m : dict) (rest : list (N * reaction)) :
  inbound w = (dt, Deliver m) :: rest ->
  _is_keep_alive_response m = true ->
  _next_response wait_id w = _next_response wait_id (received dt rest w).
Proof.
  intros E K.
  rewrite (_next_response_head _ _ _ _ _ E), K.
  reflexivity.
Qed.

Lemma _next_response_other_id (wait_id : value) (w : world)
      (dt : N) (m : dict) (id : value) (rest : list (N * reaction)) :
  inbound w = (dt, Deliver m) :: rest ->
  is_none wait_id = false ->
  _is_keep_alive_response m = false ->
  dict_lookup "id" m = Some id ->
  py_eq id wait_id = false ->
  _next_response wait_id w = _next_response wait_id (received dt rest w).
Proof.
  intros E W K I Q.
  rewrite (_next_response_head _ _ _ _ _ E), K, W.
  unfold dict_getitem. rewrite I, Q.
  reflexivity.
Qed.

Lemma _next_response_same_id (wait_id : value) (w : world)
      (dt : N) (m : dict) (id : value) (rest : list (N * reaction)) :
  inbound w = (dt, Deliver m) :: rest ->
  _is_keep_alive_response m = false ->
  dict_lookup "id" m = Some id ->
  py_eq id wait_id = true ->
  _next_response wait_id w = (Return m, received dt rest w).
Proof.
  intros E K I Q.
  rewrite (_next_response_head _ _ _ _ _ E), K.
  unfold dict_getitem. rewrite I, Q.
  destruct (is_none wait_id); reflexivity.
Qed.

End ReceiveFacts.

(** ** Payloads and message construction *)

Module MessageFacts.
Import Py Transport Client Script.

Lemma py_in_dict (k : string) (d : dict) :
  py_in k (VDict d)
  = inl (match dict_lookup k d with Some _ => true | None => false end).
Proof.
  unfold py_in, dict_keys. f_equal.
  induction d as [|[k' v] d IH]; simpl; [reflexivity|].
  destruct (String.eqb k k'); [reflexivity | exact IH].
Qed.

(** A mapping payload with an [errors] key raises the response error
    that carries it. *)
Lemma _response_payload_errors (r : dict) (d : dict) (errors : value) :
  dict_lookup "payload" r = Some (VDict d) ->
  dict_lookup "errors" d = Some errors ->
  _response_payload r = inr (GraphqlWsResponseError (VDict d) errors).
Proof.
  intros P E.
  unfold _response_payload, dict_get. rewrite P. simpl is_none. cbv iota.
  unfold new_GraphqlWsResponseError.
  rewrite py_in_dict, E.
  unfold py_getitem, dict_getitem. rewrite E.
  reflexivity.
Qed.

Lemma _response_payload_absent (r : dict) :
  dict_lookup "payload" r = None ->
  _response_payload r = inl VNone.
Proof.
  intro P. unfold _response_payload, dict_get. rewrite P. reflexivity.
Qed.

Lemma _response_payload_clean (r : dict) (payload : value) :
  dict_lookup "payload" r = Some payload ->
  payload = VNone \/ py_in "errors" payload = inl false ->
  _response_payload r = inl payload.
Proof.
  intros P [N|I]; unfold _response_payload, dict_get; rewrite P.
  - subst. reflexivity.
  - destruct (is_none payload); [reflexivity|].
    rewrite I. reflexivity.
Qed.

(** A payload that is a number or a boolean cannot be searched: the
    membership test itself raises. *)
Remark _response_payload_scalar (r : dict) (payload : value) :
  dict_lookup "payload" r = Some payload ->
  (exists z, payload = VInt z) \/ (exists b, payload = VBool b) ->
  _response_payload r = inr TypeError.
Proof.
  intros P [[z E]|[b E]]; subst;
    unfold _response_payload, dict_get; rewrite P; reflexivity.
Qed.

Lemma py_eq_str_refl (x : string) : py_eq (VStr x) (VStr x) = true.
Proof. simpl. apply String.eqb_refl. Qed.

(** [gql_start] mints an identifier and sends the start message. *)
Lemma gql_start_run (uuid4_hex : nat -> string) (query : string)
      (variables : value) (w : world) :
  gql_start uuid4_hex query variables w
  = (match hd None (send_faults w) with
     | None => Return (VStr (uuid4_hex (uuids_drawn w)))
     | Some e => Raise e
     end,
     sent (start_message (VStr (uuid4_hex (uuids_drawn w))) query variables)
          (drawn w)).
Proof.
  unfold gql_start, gql_send, bind, fresh_uuid.
  simpl.
  rewrite MonadFacts.send_outcome. simpl.
  destruct (hd None (send_faults w)); reflexivity.
Qed.

(** What [variables or {}] comes to: the empty mapping for the values
    Python takes for false, the value itself for any other. *)
Lemma py_or_empty_mapping (variables : value) :
  (In variables falsy_values -> py_or variables (VDict []) = VDict [])
  /\ (~ In variables falsy_values -> py_or variables (VDict []) = variables).
Proof.
  unfold falsy_values, py_or. split.
  - intros [<-|[<-|[<-|[<-|[<-|[<-|[]]]]]]]; reflexivity.
  - intro N.
    destruct variables as [|[|]|z|x|[|v l]|[|kv d]]; simpl;
      try reflexivity;
      try (elim N; simpl; tauto).
    + destruct (Z.eqb_spec z 0) as [->|_]; [elim N; simpl; tauto|reflexivity].
    + destruct x; [elim N; simpl; tauto | reflexivity].
Qed.

(** An awaited message with a clean payload at the head of the stream is
    what [gql_receive] returns. *)
Lemma gql_receive_same_id (wait_id : value) (w : world) (dt : N) (m : dict)
      (id : value) (rest : list (N * reaction)) :
  inbound w = (dt, Deliver m) :: rest ->
  _is_keep_alive_response m = false ->
  dict_lookup "id" m = Some id ->
  py_eq id wait_id = true ->
  gql_receive wait_id w = lift (_response_payload m) (received dt rest w).
Proof.
  intros E K I Q.
  unfold gql_receive, bind.
  rewrite (ReceiveFacts._next_response_same_id _ _ _ _ _ _ E K I Q).
  reflexivity.
Qed.

End MessageFacts.

(** ** The bounded wait *)

Module WaitFacts.
Import Py Transport Client Script LoopFacts.


(** A turn that times out, or brings a response that fails the
    checker, takes its time off the budget and the wait goes on. *)
Lemma gql_wait_response_goes_on (TIMEOUT : Z) (clock_seconds : Z -> float)
      (response_checker : value -> bool) (timeout timeout' : number)
      (w : world) (o : outcome value) (w' : world) :
  positive timeout = true ->
  gql_receive VNone w = (o, w') ->
  o = Raise TimeoutError
  \/ (exists response,
        o = Return response /\ response_checker response = false) ->
  minus_float timeout (PrimFloat.sub (monotonic clock_seconds w')
                                     (monotonic clock_seconds w))
  = inl timeout' ->
  gql_wait_response TIMEOUT clock_seconds response_checker (Some timeout) w
  = gql_wait_response TIMEOUT clock_seconds response_checker
                      (Some timeout') w'.
Proof.
  intros P R [->|[response [-> C]]] Mn;
    rewrite (gql_wait_response_turn _ _ _ timeout w), P, R;
    [|rewrite C]; rewrite Mn; reflexivity.
Qed.

(** The budget across the turns: while the wait polls, the budget is
    what the turns have left of it. *)
Lemma gql_wait_response_polls (TIMEOUT : Z) (clock_seconds : Z -> float)
      (response_checker : value -> bool) :
  forall (f : float) (w : world) (f' : float) (w' : world),
    polls clock_seconds response_checker f w f' w' ->
    gql_wait_response TIMEOUT clock_seconds response_checker
                      (Some (Float f)) w
    = gql_wait_response TIMEOUT clock_seconds response_checker
                        (Some (Float f')) w'.
Proof.
  intros f w f' w' H.
  induction H as [f w|f w o w1 f' w' P R O _ IH]; [reflexivity|].
  rewrite <- IH.
  eapply gql_wait_response_goes_on; [exact P | exact R | exact O |].
  reflexivity.
Qed.

End WaitFacts.

Import Py Transport Client Script.

(** C1: a receive never hands a keep-alive to its caller.  Whatever
    payload [gql_receive] returns is the payload of a message that is
    not a keep-alive; a keep-alive at the head of the stream is taken
    off and the wait goes on behind it; and on the stream
    [ka, ka, {id: "X", payload: {data: 1}}] a receive waiting on ["X"]
    returns [{data: 1}] after exactly three [receive()] calls, leaving
    the stream empty. *)
Theorem C1_keep_alive_never_returned :
  forall (wait_id : value) (w : world),
    (forall payload w',
        gql_receive wait_id w = (Return payload, w') ->
        exists r,
          _next_response wait_id w = (Return r, w')
          /\ _is_keep_alive_response r = false
          /\ _response_payload r = inl payload)
    /\ (forall dt m rest,
           inbound w = (dt, Deliver m) :: rest ->
           _is_keep_alive_response m = true ->
           gql_receive wait_id w = gql_receive wait_id (received dt rest w))
    /\ (forall d1 d2 d3 k1 k2,
           _is_keep_alive_response k1 = true ->
           _is_keep_alive_response k2 = true ->
           inbound w
           = [(d1, Deliver k1); (d2, Deliver k2); (d3, Deliver message_X)] ->
           exists w',
             gql_receive (VStr "X") w = (Return data_1, w')
             /\ inbound w' = []
             /\ trace w' = trace w ++ [Receive; Receive; Receive]).
Proof.
  intros wait_id w.
  split; [|split].
  - intros payload w' H.
    unfold gql_receive, bind in H.
    destruct (_next_response wait_id w) as [[r| e |] w1] eqn:N;
      try discriminate.
    unfold lift in H.
    destruct (_response_payload r) as [p|e] eqn:P; [|discriminate].
    inversion H; subst.
    exists r.
    repeat split; try assumption.
    eapply ReceiveFacts._next_response_not_keep_alive; exact N.
  - intros dt m rest E K.
    unfold gql_receive, bind.
    rewrite (ReceiveFacts._next_response_keep_alive _ _ _ _ _ E K).
    reflexivity.
  - intros d1 d2 d3 k1 k2 K1 K2 E.
    eexists.
    unfold gql_receive, bind.
    rewrite (ReceiveFacts._next_response_keep_alive _ _ _ _ _ E K1).
    rewrite (ReceiveFacts._next_response_keep_alive
               _ (received d1 _ w) d2 k2 _ eq_refl K2).
    rewrite (ReceiveFacts._next_response_same_id
               (VStr "X") (received d2 _ (received d1 _ w)) d3 message_X
               (VStr "X") []
               eq_refl eq_refl eq_refl eq_refl).
    simpl.
    repeat split.
    unfold received; simpl.
    rewrite <- !app_assoc. reflexivity.
Qed.

(** C2: a receive waiting on an identifier drops what carries another
    one.  A message that is no keep-alive and whose [id] differs from
    the awaited one is taken off the stream, and the world that remains
    keeps no copy of it; on the stream
    [{id: "Y", payload: {}}, {id: "X", payload: {data: 1}}] a receive
    waiting on ["X"] returns [{data: 1}], and a later receive waiting on
    ["Y"] can only return what the stream delivers after these two: with
    no more traffic it waits for ever. *)
Theorem C2_other_identifier_dropped :
  forall (wait_id : value) (w : world),
    (forall dt m id rest,
        inbound w = (dt, Deliver m) :: rest ->
        is_none wait_id = false ->
        _is_keep_alive_response m = false ->
        dict_lookup "id" m = Some id ->
        py_eq id wait_id = false ->
        gql_receive wait_id w = gql_receive wait_id (received dt rest w))
    /\ (forall d1 d2 rest,
           inbound w
           = (d1, Deliver message_Y) :: (d2, Deliver message_X) :: rest ->
           gql_receive (VStr "X") w
           = (Return data_1,
              received d2 rest
                       (received d1 ((d2, Deliver message_X) :: rest) w)))
    /\ (forall d1 d2 rest payload w2,
           inbound w
           = (d1, Deliver message_Y) :: (d2, Deliver message_X) :: rest ->
           gql_receive (VStr "Y")
                       (received d2 rest
                          (received d1 ((d2, Deliver message_X) :: rest) w))
           = (Return payload, w2) ->
           exists dt m,
             In (dt, Deliver m) rest /\ _response_payload m = inl payload)
    /\ (forall d1 d2,
           inbound w = [(d1, Deliver message_Y); (d2, Deliver message_X)] ->
           exists w',
             gql_receive (VStr "X") w = (Return data_1, w')
             /\ inbound w' = []
             /\ fst (gql_receive (VStr "Y") w') = Pending).
Proof.
  intros wait_id w.
  assert (Ex : forall d1 d2 rest,
             inbound w
             = (d1, Deliver message_Y) :: (d2, Deliver message_X) :: rest ->
             gql_receive (VStr "X") w
             = (Return data_1,
                received d2 rest
                         (received d1 ((d2, Deliver message_X) :: rest) w))).
  { intros d1 d2 rest E.
    unfold gql_receive, bind.
    rewrite (ReceiveFacts._next_response_other_id
               (VStr "X") _ _ _ (VStr "Y") _ E eq_refl eq_refl eq_refl eq_refl).
    rewrite (ReceiveFacts._next_response_same_id
               (VStr "X") (received d1 _ w) d2 message_X (VStr "X") rest
               eq_refl eq_refl eq_refl eq_refl).
    reflexivity. }
  split; [|split; [|split]].
  - intros dt m id rest E W K I Q.
    unfold gql_receive, bind.
    rewrite (ReceiveFacts._next_response_other_id _ _ _ _ _ _ E W K I Q).
    reflexivity.
  - exact Ex.
  - intros d1 d2 rest payload w2 E R.
    exact (ReceiveFacts.gql_receive_returns_delivered _ _ _ _ R).
  - intros d1 d2 E.
    eexists.
    split; [apply Ex; exact E|].
    split; reflexivity.
Qed.

(** C9: a message without [id] breaks a receive that waits on an
    identifier.  Once the deliveries before it have been passed over, a
    message that is no keep-alive and has no [id] key makes
    [_next_response], and [gql_receive] with it, raise [KeyError] on
    ["id"]: the message is neither skipped nor returned. *)
Theorem C9_missing_id_raises_key_error :
  forall (wait_id : value) (w : world)
         (pre : list (N * reaction)) (dt : N) (m : dict)
         (rest : list (N * reaction)),
    is_none wait_id = false ->
    inbound w = pre ++ (dt, Deliver m) :: rest ->
    forallb (passed_over wait_id) pre = true ->
    _is_keep_alive_response m = false ->
    dict_lookup "id" m = None ->
    _next_response wait_id w
    = (Raise (KeyError "id"),
       received dt rest (receive_n (List.length pre) w))
    /\ gql_receive wait_id w
       = (Raise (KeyError "id"),
          received dt rest (receive_n (List.length pre) w)).
Proof.
  intros wait_id w pre dt m rest W E F K I.
  assert (N : _next_response wait_id w
              = (Raise (KeyError "id"),
                 received dt rest (receive_n (List.length pre) w))).
  { rewrite (ReceiveFacts._next_response_passes_over _ _ _ _ E F).
    destruct (ReceiveFacts.receive_n_inbound _ _ _ E) as [E' _].
    rewrite (ReceiveFacts._next_response_head _ _ _ _ _ E'), K, W.
    unfold dict_getitem. rewrite I.
    reflexivity. }
  split; [exact N|].
  unfold gql_receive, bind.
  rewrite N. reflexivity.
Qed.

(** C3, as amended: the one check on a payload.  For a response that
    the receive loop returns: if its payload is a mapping with an
    [errors] key, [gql_receive] raises the response error, which carries
    that very payload (and the value under [errors]); if the payload is
    absent the call returns [None]; if the payload is [None], or a
    mapping, list or string for which the test ["errors" in payload] is
    false, the call returns the payload; if the payload is a number or a
    boolean, the test itself raises [TypeError]. *)
Theorem C3_errors_payload_raises :
  forall (wait_id : value) (w : world) (r : dict) (w' : world),
    _next_response wait_id w = (Return r, w') ->
    (forall d errors,
        dict_lookup "payload" r = Some (VDict d) ->
        dict_lookup "errors" d = Some errors ->
        gql_receive wait_id w
        = (Raise (GraphqlWsResponseError (VDict d) errors), w'))
    /\ (dict_lookup "payload" r = None ->
        gql_receive wait_id w = (Return VNone, w'))
    /\ (forall d,
           dict_lookup "payload" r = Some (VDict d) ->
           dict_lookup "errors" d = None ->
           gql_receive wait_id w = (Return (VDict d), w'))
    /\ (forall payload,
           dict_lookup "payload" r = Some payload ->
           payload = VNone \/ py_in "errors" payload = inl false ->
           gql_receive wait_id w = (Return payload, w'))
    /\ (forall payload,
           dict_lookup "payload" r = Some payload ->
           (exists z, payload = VInt z) \/ (exists b, payload = VBool b) ->
           gql_receive wait_id w = (Raise TypeError, w')).
Proof.
  intros wait_id w r w' N.
  unfold gql_receive, bind. rewrite N.
  repeat split.
  - intros d errors P E.
    rewrite (MessageFacts._response_payload_errors _ _ _ P E). reflexivity.
  - intro P.
    rewrite (MessageFacts._response_payload_absent _ P). reflexivity.
  - intros d P E.
    rewrite (MessageFacts._response_payload_clean _ _ P); [reflexivity|].
    right. rewrite MessageFacts.py_in_dict, E. reflexivity.
  - intros payload P C.
    rewrite (MessageFacts._response_payload_clean _ _ P C). reflexivity.
  - intros payload P C.
    rewrite (MessageFacts._response_payload_scalar _ _ P C). reflexivity.
Qed.

(** C3, as stated, fails: a response whose payload is the number 5 has
    a payload without [errors], and [gql_receive] raises [TypeError]
    instead of returning it. *)
Lemma C3_scalar_payload_counterexample :
  gql_receive (VStr "X") (scripted stream_5)
  = (Raise TypeError, receive_n 1 (scripted stream_5))
  /\ ~ (forall wait_id w r w' payload,
          _next_response wait_id w = (Return r, w') ->
          dict_lookup "payload" r = Some payload ->
          has_errors_key payload = false ->
          gql_receive wait_id w = (Return payload, w')).
Proof.
  split; [reflexivity|].
  intro H.
  specialize (H (VStr "X") (scripted stream_5) message_5
                (receive_n 1 (scripted stream_5)) (VInt 5)
                eq_refl eq_refl eq_refl).
  discriminate H.
Qed.

(** C5: the handshake.  With [connect_only] the client only opens the
    transport.  Otherwise, once the transport is open, it sends the one
    message [{type: "connection_init", payload: ""}] and takes one
    response; unless the type of that response is ["connection_ack"]
    the call fails, with [AssertionError] when the type is another one
    (and with [KeyError] on a response that has no type at all), and the
    transport has then seen the connect, that one send and one receive,
    nothing else. *)
Theorem C5_connect_and_init :
  forall (TIMEOUT : Z) (w : world),
    gql_connect_and_init TIMEOUT true w
    = (match connect_fault w with
       | None => Return tt
       | Some e => Raise e
       end, log (Connect TIMEOUT) w)
    /\ (forall dt resp rest,
           connect_fault w = None ->
           hd None (send_faults w) = None ->
           inbound w = (dt, Deliver resp) :: rest ->
           exists w',
             gql_connect_and_init TIMEOUT false w
             = (match dict_lookup "type" resp with
                | Some ty =>
                    if py_eq ty (VStr "connection_ack") then Return tt
                    else Raise AssertionError
                | None => Raise (KeyError "type")
                end, w')
             /\ trace w'
                = trace w
                  ++ [Connect TIMEOUT;
                      Send [("type", VStr "connection_init");
                            ("payload", VStr "")];
                      Receive]
             /\ inbound w' = rest).
Proof.
  intros TIMEOUT w.
  split.
  - unfold gql_connect_and_init, bind, connect.
    destruct (connect_fault w); reflexivity.
  - intros dt resp rest C S E.
    exists (received dt rest
                     (sent [("type", VStr "connection_init");
                            ("payload", VStr "")]
                           (log (Connect TIMEOUT) w))).
    split; [|split].
    + unfold gql_connect_and_init.
      rewrite (MonadFacts.bind_return _ _ _ _ _
                 (MonadFacts.connect_ok TIMEOUT w C)).
      cbv beta. change (negb false) with true. cbv iota.
      rewrite (MonadFacts.bind_return _ _ _ _ _
                 (MonadFacts.send_ok _ (log (Connect TIMEOUT) w) S)).
      cbv beta.
      rewrite (MonadFacts.bind_return _ _ _ _ _
                 (MonadFacts.receive_deliver
                    (sent _ (log (Connect TIMEOUT) w)) dt resp rest E)).
      unfold bind, lift, dict_getitem.
      destruct (dict_lookup "type" resp) as [ty|]; [|reflexivity].
      unfold ret, raise.
      destruct (py_eq ty (VStr "connection_ack")); reflexivity.
    + simpl. rewrite <- !app_assoc. reflexivity.
    + reflexivity.
Qed.


(** C7: [gql_execute] on the happy path.  It starts the exchange,
    returns the payload of a first receive on the minted identifier and
    drops the result of one more.  When the server answers with one data
    message and one complete message, both tagged with that identifier,
    the call returns the data payload, the stream is empty afterwards,
    and the transport has seen the start message and two receives. *)
Theorem C7_execute_returns_data_and_drains :
  forall (uuid4_hex : nat -> string) (query : string) (variables : value)
         (w : world),
    let id := VStr (uuid4_hex (uuids_drawn w)) in
    (forall w1 payload w2 last w3,
        gql_start uuid4_hex query variables w = (Return id, w1) ->
        gql_receive id w1 = (Return payload, w2) ->
        gql_receive id w2 = (Return last, w3) ->
        gql_execute uuid4_hex query variables w = (Return payload, w3))
    /\ (forall d1 d2 data complete payload last,
           hd None (send_faults w) = None ->
           inbound w = [(d1, Deliver data); (d2, Deliver complete)] ->
           _is_keep_alive_response data = false ->
           _is_keep_alive_response complete = false ->
           dict_lookup "id" data = Some id ->
           dict_lookup "id" complete = Some id ->
           _response_payload data = inl payload ->
           _response_payload complete = inl last ->
           exists w',
             gql_execute uuid4_hex query variables w = (Return payload, w')
             /\ inbound w' = []
             /\ trace w'
                = trace w ++ [Send (start_message id query variables);
                              Receive; Receive]).
Proof.
  intros uuid4_hex query variables w id.
  split.
  { intros w1 payload w2 last w3 S R1 R2.
    unfold gql_execute.
    rewrite (MonadFacts.bind_return _ _ _ _ _ S). cbv beta.
    rewrite (MonadFacts.bind_return _ _ _ _ _ R1). cbv beta.
    rewrite (MonadFacts.bind_return _ _ _ _ _ R2).
    reflexivity. }
  intros d1 d2 data complete payload last S E K1 K2 I1 I2 P1 P2.
  eexists.
  split; [|split].
  - unfold gql_execute.
    erewrite MonadFacts.bind_return;
      [|rewrite MessageFacts.gql_start_run, S; reflexivity].
    erewrite MonadFacts.bind_return;
      [|erewrite MessageFacts.gql_receive_same_id;
        [rewrite P1; reflexivity
        |exact E | exact K1 | exact I1
        |apply MessageFacts.py_eq_str_refl]].
    erewrite MonadFacts.bind_return;
      [|erewrite MessageFacts.gql_receive_same_id;
        [rewrite P2; reflexivity
        |reflexivity | exact K2 | exact I2
        |apply MessageFacts.py_eq_str_refl]].
    reflexivity.
  - reflexivity.
  - simpl. rewrite <- !app_assoc. reflexivity.
Qed.

(** C10: [gql_execute] when the data response carries errors.  The
    response error of the first receive leaves [gql_execute] at once:
    the transport has seen the start message and a single receive, and
    whatever follows the data message (the complete message of the
    exchange) is still in the stream. *)
Theorem C10_execute_error_skips_terminal_receive :
  forall (uuid4_hex : nat -> string) (query : string) (variables : value)
         (w : world) (d1 : N) (data : dict) (d : dict) (errors : value)
         (rest : list (N * reaction)),
    let id := VStr (uuid4_hex (uuids_drawn w)) in
    hd None (send_faults w) = None ->
    inbound w = (d1, Deliver data) :: rest ->
    _is_keep_alive_response data = false ->
    dict_lookup "id" data = Some id ->
    dict_lookup "payload" data = Some (VDict d) ->
    dict_lookup "errors" d = Some errors ->
    exists w',
      gql_execute uuid4_hex query variables w
      = (Raise (GraphqlWsResponseError (VDict d) errors), w')
      /\ inbound w' = rest
      /\ trace w'
         = trace w ++ [Send (start_message id query variables); Receive].
Proof.
  intros uuid4_hex query variables w d1 data d errors rest id S E K I P R.
  eexists.
  split; [|split].
  - unfold gql_execute.
    erewrite MonadFacts.bind_return;
      [|rewrite MessageFacts.gql_start_run, S; reflexivity].
    erewrite MonadFacts.bind_raise;
      [reflexivity|].
    erewrite MessageFacts.gql_receive_same_id;
      [rewrite (MessageFacts._response_payload_errors _ _ _ P R); reflexivity
      |exact E | exact K | exact I
      |apply MessageFacts.py_eq_str_refl].
  - reflexivity.
  - simpl. rewrite <- !app_assoc. reflexivity.
Qed.

(** C8: [gql_start] sends a message of type ["start"] under a freshly
    minted identifier and returns that identifier; the payload holds the
    query as [textwrap.dedent] leaves it, and the variables, an empty
    mapping standing in for variables that are not given.  The dedented
    query is the text with the common indentation of its lines taken off
    every line.  Spelled out: variables that Python takes for false
    ([None], an empty mapping, ...) travel as the empty mapping, any
    other value travels as it is; and a line of spaces and tabs above a
    line indented with spaces and tabs comes out empty, the indented
    line without its indentation. *)
Theorem C8_start_sends_dedented_query :
  forall (uuid4_hex : nat -> string) (query : string) (variables : value)
         (w : world),
    let id := VStr (uuid4_hex (uuids_drawn w)) in
    gql_start uuid4_hex query variables w
    = (match hd None (send_faults w) with
       | None => Return id
       | Some e => Raise e
       end,
       sent [("id", id);
             ("type", VStr "start");
             ("payload",
              VDict [("query", VStr (Textwrap.dedent query));
                     ("variables",
                      if truthy variables then variables else VDict [])])]
            (drawn w))
    /\ gql_start uuid4_hex query VNone w
       = gql_start uuid4_hex query (VDict []) w
    /\ (exists margin,
          common_indent (dedent_lines query) margin
          /\ Textwrap.dedent query
             = Textwrap.join_lines
                 (map (Textwrap.drop_chars (String.length margin))
                      (dedent_lines query)))
    /\ (In variables falsy_values ->
        gql_start uuid4_hex query variables w
        = (match hd None (send_faults w) with
           | None => Return id
           | Some e => Raise e
           end,
           sent (start_message_with id (Textwrap.dedent query) (VDict []))
                (drawn w)))
    /\ (~ In variables falsy_values ->
        gql_start uuid4_hex query variables w
        = (match hd None (send_faults w) with
           | None => Return id
           | Some e => Raise e
           end,
           sent (start_message_with id (Textwrap.dedent query) variables)
                (drawn w)))
    /\ (forall b m l,
           spaces_and_tabs b -> spaces_and_tabs m -> starts_flush l ->
           Textwrap.dedent (b ++ String "010" (m ++ l)) = String "010" l).
Proof.
  intros uuid4_hex query variables w id.
  destruct (MessageFacts.py_or_empty_mapping variables) as [Falsy Truthy].
  split; [apply MessageFacts.gql_start_run|].
  split; [reflexivity|].
  split; [apply TextwrapFacts.dedent_common_indent|].
  split; [|split].
  - intro F.
    rewrite MessageFacts.gql_start_run.
    unfold start_message, start_message_with. rewrite (Falsy F). reflexivity.
  - intro T.
    rewrite MessageFacts.gql_start_run.
    unfold start_message, start_message_with. rewrite (Truthy T). reflexivity.
  - intros b m l. apply TextwrapFacts.dedent_blank_then_indented.
Qed.


(** ** Worked instances *)

Lemma C1_keep_alive_never_returned_witness :
  (_is_keep_alive_response keep_alive = true
   /\ inbound (scripted stream_ka_ka_X) = stream_ka_ka_X)
  /\ (exists r,
        _next_response (VStr "X") (scripted stream_ka_ka_X)
        = (Return r, receive_n 3 (scripted stream_ka_ka_X))
        /\ _is_keep_alive_response r = false
        /\ _response_payload r = inl data_1)
  /\ gql_receive (VStr "X") (scripted stream_ka_ka_X)
     = gql_receive (VStr "X")
                   (received 0 (tl stream_ka_ka_X) (scripted stream_ka_ka_X))
  /\ (exists w',
        gql_receive (VStr "X") (scripted stream_ka_ka_X) = (Return data_1, w')
        /\ inbound w' = []
        /\ trace w'
           = trace (scripted stream_ka_ka_X) ++ [Receive; Receive; Receive]).
Proof.
  destruct (C1_keep_alive_never_returned (VStr "X") (scripted stream_ka_ka_X))
    as [H1 [H2 H3]].
  split; [split; reflexivity|].
  split; [exact (H1 data_1 _ eq_refl)|].
  split; [exact (H2 0%N keep_alive _ eq_refl eq_refl)|].
  exact (H3 0%N 0%N 0%N keep_alive keep_alive eq_refl eq_refl eq_refl).
Defined.

Lemma C2_other_identifier_dropped_witness :
  (inbound (scripted stream_Y_X) = stream_Y_X
   /\ is_none (VStr "X") = false
   /\ _is_keep_alive_response message_Y = false
   /\ dict_lookup "id" message_Y = Some (VStr "Y")
   /\ py_eq (VStr "Y") (VStr "X") = false)
  /\ gql_receive (VStr "X") (scripted stream_Y_X)
     = gql_receive (VStr "X")
                   (received 0 (tl stream_Y_X) (scripted stream_Y_X))
  /\ gql_receive (VStr "X") (scripted stream_Y_X)
     = (Return data_1,
        received 0 [] (received 0 (tl stream_Y_X) (scripted stream_Y_X)))
  /\ (exists w',
        gql_receive (VStr "X") (scripted stream_Y_X) = (Return data_1, w')
        /\ inbound w' = []
        /\ fst (gql_receive (VStr "Y") w') = Pending)
  /\ (gql_receive (VStr "Y") (receive_n 2 (scripted stream_Y_X_Y))
      = (Return (VDict []), receive_n 3 (scripted stream_Y_X_Y))
      /\ exists dt m,
          In (dt, Deliver m) [(0%N, Deliver message_Y)]
          /\ _response_payload m = inl (VDict [])).
Proof.
  destruct (C2_other_identifier_dropped (VStr "X") (scripted stream_Y_X))
    as [H1 [H2 [_ H3]]].
  destruct (C2_other_identifier_dropped (VStr "X") (scripted stream_Y_X_Y))
    as [_ [_ [H4 _]]].
  split; [repeat split|].
  split; [exact (H1 0%N message_Y (VStr "Y") _
                    eq_refl eq_refl eq_refl eq_refl eq_refl)|].
  split; [exact (H2 0%N 0%N [] eq_refl)|].
  split; [exact (H3 0%N 0%N eq_refl)|].
  split; [reflexivity|].
  exact (H4 0%N 0%N [(0%N, Deliver message_Y)] (VDict []) _ eq_refl eq_refl).
Defined.

Lemma C3_errors_payload_raises_witness :
  (_next_response (VStr "f") (scripted stream_failed)
   = (Return failed_f, receive_n 1 (scripted stream_failed))
   /\ dict_lookup "payload" failed_f = Some (VDict errors_1)
   /\ dict_lookup "errors" errors_1 = Some (VList [VStr "boom"]))
  /\ gql_receive (VStr "f") (scripted stream_failed)
     = (Raise (GraphqlWsResponseError (VDict errors_1) (VList [VStr "boom"])),
        receive_n 1 (scripted stream_failed))
  /\ (_next_response (VStr "f") (scripted (tl stream_exchange))
      = (Return complete_f, receive_n 1 (scripted (tl stream_exchange)))
      /\ dict_lookup "payload" complete_f = None)
  /\ gql_receive (VStr "f") (scripted (tl stream_exchange))
     = (Return VNone, receive_n 1 (scripted (tl stream_exchange)))
  /\ (_next_response (VStr "X") (scripted stream_ka_ka_X)
      = (Return message_X, receive_n 3 (scripted stream_ka_ka_X))
      /\ dict_lookup "payload" message_X = Some data_1
      /\ dict_lookup "errors" [("data", VInt 1)] = None
      /\ py_in "errors" data_1 = inl false)
  /\ gql_receive (VStr "X") (scripted stream_ka_ka_X)
     = (Return data_1, receive_n 3 (scripted stream_ka_ka_X))
  /\ (_next_response (VStr "X") (scripted stream_5)
      = (Return message_5, receive_n 1 (scripted stream_5))
      /\ dict_lookup "payload" message_5 = Some (VInt 5))
  /\ gql_receive (VStr "X") (scripted stream_5)
     = (Raise TypeError, receive_n 1 (scripted stream_5)).
Proof.
  destruct (C3_errors_payload_raises
              (VStr "f") (scripted stream_failed) failed_f _ eq_refl)
    as [H1 _].
  destruct (C3_errors_payload_raises
              (VStr "f") (scripted (tl stream_exchange)) complete_f _ eq_refl)
    as [_ [H2 _]].
  destruct (C3_errors_payload_raises
              (VStr "X") (scripted stream_ka_ka_X) message_X _ eq_refl)
    as [_ [_ [H3 [H4 _]]]].
  split; [repeat split|].
  split; [exact (H1 errors_1 _ eq_refl eq_refl)|].
  split; [repeat split|].
  split; [exact (H2 eq_refl)|].
  split; [repeat split|].
  split; [exact (H4 data_1 eq_refl (or_intror eq_refl))|].
  split; [repeat split|].
  destruct (C3_errors_payload_raises
              (VStr "X") (scripted stream_5) message_5 _ eq_refl)
    as [_ [_ [_ [_ H5]]]].
  exact (H5 (VInt 5) eq_refl (or_introl (ex_intro _ 5 eq_refl))).
Defined.

Lemma C5_connect_and_init_witness :
  (connect_fault (scripted stream_refused) = None
   /\ hd None (send_faults (scripted stream_refused)) = None
   /\ inbound (scripted stream_refused) = stream_refused)
  /\ (exists w',
        gql_connect_and_init 60 false (scripted stream_refused)
        = (Raise AssertionError, w')
        /\ trace w'
           = [Connect 60;
              Send [("type", VStr "connection_init"); ("payload", VStr "")];
              Receive]
        /\ inbound w' = [])
  /\ gql_connect_and_init 60 true (scripted stream_refused)
     = (Return tt, log (Connect 60) (scripted stream_refused)).
Proof.
  destruct (C5_connect_and_init 60 (scripted stream_refused)) as [H1 H2].
  split; [repeat split|].
  split; [|exact H1].
  exact (H2 0%N [("type", VStr "connection_error")] [] eq_refl eq_refl eq_refl).
Defined.


Lemma C7_execute_returns_data_and_drains_witness :
  (hd None (send_faults (scripted stream_exchange)) = None
   /\ inbound (scripted stream_exchange) = stream_exchange
   /\ _is_keep_alive_response data_f = false
   /\ _is_keep_alive_response complete_f = false
   /\ dict_lookup "id" data_f = Some (VStr (sample_uuid 0))
   /\ dict_lookup "id" complete_f = Some (VStr (sample_uuid 0))
   /\ _response_payload data_f = inl data_1
   /\ _response_payload complete_f = inl VNone)
  /\ exists w',
      gql_execute sample_uuid "  query { x }" VNone (scripted stream_exchange)
      = (Return data_1, w')
      /\ inbound w' = []
      /\ trace w'
         = [Send (start_message (VStr "f") "  query { x }" VNone);
            Receive; Receive].
Proof.
  split; [repeat split|].
  destruct (C7_execute_returns_data_and_drains
              sample_uuid "  query { x }" VNone (scripted stream_exchange))
    as [_ H].
  exact (H 1%N 1%N data_f complete_f data_1 VNone
           eq_refl eq_refl eq_refl eq_refl eq_refl eq_refl eq_refl eq_refl).
Defined.

Lemma C9_missing_id_raises_key_error_witness :
  (is_none (VStr "X") = false
   /\ inbound (scripted stream_no_id)
      = [(0%N, Deliver keep_alive); (0%N, Deliver message_Y)]
          ++ [(0%N, Deliver [("type", VStr "data")])]
   /\ forallb (passed_over (VStr "X"))
              [(0%N, Deliver keep_alive); (0%N, Deliver message_Y)] = true
   /\ _is_keep_alive_response [("type", VStr "data")] = false
   /\ dict_lookup "id" [("type", VStr "data")] = None)
  /\ gql_receive (VStr "X") (scripted stream_no_id)
     = (Raise (KeyError "id"),
        received 0 [] (receive_n 2 (scripted stream_no_id))).
Proof.
  split; [repeat split|].
  exact (proj2 (C9_missing_id_raises_key_error
                  (VStr "X") (scripted stream_no_id)
                  [(0%N, Deliver keep_alive); (0%N, Deliver message_Y)]
                  0%N [("type", VStr "data")] []
                  eq_refl eq_refl eq_refl eq_refl eq_refl)).
Defined.

Lemma C10_execute_error_skips_terminal_receive_witness :
  (hd None (send_faults (scripted stream_failed)) = None
   /\ inbound (scripted stream_failed) = stream_failed
   /\ _is_keep_alive_response failed_f = false
   /\ dict_lookup "id" failed_f = Some (VStr (sample_uuid 0))
   /\ dict_lookup "payload" failed_f = Some (VDict errors_1)
   /\ dict_lookup "errors" errors_1 = Some (VList [VStr "boom"]))
  /\ exists w',
      gql_execute sample_uuid "query { x }" VNone (scripted stream_failed)
      = (Raise (GraphqlWsResponseError (VDict errors_1) (VList [VStr "boom"])),
         w')
      /\ inbound w' = [(1%N, Deliver complete_f)]
      /\ trace w'
         = [Send (start_message (VStr "f") "query { x }" VNone); Receive].
Proof.
  split; [repeat split|].
  exact (C10_execute_error_skips_terminal_receive
           sample_uuid "query { x }" VNone (scripted stream_failed)
           1%N failed_f errors_1 (VList [VStr "boom"]) [(1%N, Deliver complete_f)]
           eq_refl eq_refl eq_refl eq_refl eq_refl eq_refl).
Defined.

Lemma C8_start_sends_dedented_query_witness :
  gql_start sample_uuid indented_query VNone (scripted [])
  = (Return (VStr "f"),
     sent [("id", VStr "f");
           ("type", VStr "start");
           ("payload",
            VDict [("query", VStr flush_query); ("variables", VDict [])])]
          (drawn (scripted [])))
  /\ common_indent (dedent_lines indented_query) "    "
  /\ (~ In (VDict [("n", VInt 1)]) falsy_values
      /\ gql_start sample_uuid tabbed_query (VDict [("n", VInt 1)])
                   (scripted [])
         = (Return (VStr "f"),
            sent (start_message_with (VStr "f") untabbed_query
                                     (VDict [("n", VInt 1)]))
                 (drawn (scripted []))))
  /\ (In (VList []) falsy_values
      /\ gql_start sample_uuid tabbed_query (VList []) (scripted [])
         = (Return (VStr "f"),
            sent (start_message_with (VStr "f") untabbed_query (VDict []))
                 (drawn (scripted []))))
  /\ ((spaces_and_tabs (String "009" " ")
       /\ spaces_and_tabs (String " " (String "009" EmptyString))
       /\ starts_flush "x")
      /\ Textwrap.dedent
           (String "009" " "
            ++ String "010" (String " " (String "009" EmptyString) ++ "x"))
         = String "010" "x").
Proof.
  destruct (C8_start_sends_dedented_query
              sample_uuid indented_query VNone (scripted []))
    as [H1 [_ [[margin [H3 H4]] _]]].
  split; [exact H1|].
  split.
  { assert (E : margin = "    ").
    { destruct H3 as [C [L _]].
      assert (N : exists l, In l (dedent_lines indented_query)
                            /\ l <> EmptyString).
      { exists "    }".
        split; [right; right; left; reflexivity | discriminate]. }
      assert (A : String.prefix "    " margin = true).
      { apply L; [exact N|].
        intros l Hl _.
        destruct Hl as [<-|[<-|[<-|[]]]]; reflexivity. }
      assert (B : String.prefix margin "    " = true).
      { apply (C "    }"); [right; right; left; reflexivity | discriminate]. }
      apply TextwrapFacts.prefix_antisym; assumption. }
    rewrite <- E. exact H3. }
  assert (T : ~ In (VDict [("n", VInt 1)]) falsy_values).
  { intros [H|[H|[H|[H|[H|[H|[]]]]]]]; discriminate H. }
  assert (F : In (VList []) falsy_values).
  { right. right. right. right. left. reflexivity. }
  assert (Sb : spaces_and_tabs (String "009" " ")).
  { intros c [<-|[<-|[]]]; [right | left]; reflexivity. }
  assert (Sm : spaces_and_tabs (String " " (String "009" EmptyString))).
  { intros c [<-|[<-|[]]]; [left | right]; reflexivity. }
  assert (Sl : starts_flush "x").
  { exists "x"%char, EmptyString.
    split; [reflexivity|].
    split; [discriminate|].
    split; [discriminate|].
    intros [H|[]]; discriminate H. }
  split.
  { split; [exact T|].
    destruct (C8_start_sends_dedented_query
                sample_uuid tabbed_query (VDict [("n", VInt 1)]) (scripted []))
      as [_ [_ [_ [_ [H5 _]]]]].
    exact (H5 T). }
  split.
  { split; [exact F|].
    destruct (C8_start_sends_dedented_query
                sample_uuid tabbed_query (VList []) (scripted []))
      as [_ [_ [_ [H4' _]]]].
    exact (H4' F). }
  split; [repeat split; assumption|].
  destruct (C8_start_sends_dedented_query
              sample_uuid indented_query VNone (scripted []))
    as [_ [_ [_ [_ [_ H6]]]]].
  exact (H6 _ _ _ Sb Sm Sl).
Defined.


(** ** Further facts about the receive loop *)

Module ReachFacts.
Import Py Transport Client Script LoopFacts.

(** A message is taken for a keep-alive exactly when its [type] is the
    string ["ka"]. *)
Lemma keep_alive_iff (m : dict) :
  _is_keep_alive_response m = true <-> dict_lookup "type" m = Some (VStr "ka").
Proof.
  unfold _is_keep_alive_response, dict_get.
  destruct (dict_lookup "type" m) as [v|]; [|split; discriminate].
  destruct v; simpl; try (split; discriminate).
  split.
  - intro H. apply String.eqb_eq in H. subst. reflexivity.
  - intro H. inversion H. reflexivity.
Qed.

(** The message the wait is for, behind deliveries that are passed
    over, is what [_next_response] returns. *)
Lemma _next_response_reaches (wait_id : value) (w : world)
      (pre : list (N * reaction)) (dt : N) (m : dict)
      (rest : list (N * reaction)) :
  inbound w = pre ++ (dt, Deliver m) :: rest ->
  forallb (passed_over wait_id) pre = true ->
  _is_keep_alive_response m = false ->
  is_none wait_id = true
  \/ (exists id, dict_lookup "id" m = Some id /\ py_eq id wait_id = true) ->
  _next_response wait_id w
  = (Return m, received dt rest (receive_n (List.length pre) w)).
Proof.
  intros E F K A.
  rewrite (ReceiveFacts._next_response_passes_over _ _ _ _ E F).
  destruct (ReceiveFacts.receive_n_inbound _ _ _ E) as [E' _].
  rewrite (ReceiveFacts._next_response_head _ _ _ _ _ E'), K.
  destruct A as [N|[id [I Q]]].
  - rewrite N. reflexivity.
  - unfold dict_getitem. rewrite I, Q.
    destruct (is_none wait_id); reflexivity.
Qed.

Lemma gql_receive_reaches (wait_id : value) (w : world)
      (pre : list (N * reaction)) (dt : N) (m : dict)
      (rest : list (N * reaction)) :
  inbound w = pre ++ (dt, Deliver m) :: rest ->
  forallb (passed_over wait_id) pre = true ->
  _is_keep_alive_response m = false ->
  is_none wait_id = true
  \/ (exists id, dict_lookup "id" m = Some id /\ py_eq id wait_id = true) ->
  gql_receive wait_id w
  = lift (_response_payload m)
         (received dt rest (receive_n (List.length pre) w)).
Proof.
  intros E F K A.
  unfold gql_receive, bind.
  rewrite (_next_response_reaches _ _ _ _ _ _ E F K A).
  reflexivity.
Qed.

(** The world behind a delivery that was reached. *)
Lemma reached_world (w : world) (pre : list (N * reaction)) (dt : N)
      (ev : reaction) (rest : list (N * reaction)) :
  inbound w = pre ++ (dt, ev) :: rest ->
  inbound (received dt rest (receive_n (List.length pre) w)) = rest
  /\ trace (received dt rest (receive_n (List.length pre) w))
     = trace w ++ repeat Receive (S (List.length pre))
  /\ now (received dt rest (receive_n (List.length pre) w))
     = now w + total_ticks pre + Z.of_N dt
  /\ send_faults (received dt rest (receive_n (List.length pre) w))
     = send_faults w
  /\ uuids_drawn (received dt rest (receive_n (List.length pre) w))
     = uuids_drawn w.
Proof.
  intro E.
  destruct (ReceiveFacts.receive_n_inbound _ _ _ E) as [_ [T C]].
  simpl. rewrite T, C.
  assert (Keep : forall n v,
             send_faults (receive_n n v) = send_faults v
             /\ uuids_drawn (receive_n n v) = uuids_drawn v).
  { induction n as [|n IH]; intro v; [auto|].
    simpl. destruct (IH (snd (receive v))) as [A B].
    rewrite A, B. unfold receive.
    destruct (inbound v) as [|[d [x|x]] l]; auto. }
  destruct (Keep (List.length pre) w) as [A B].
  rewrite A, B.
  split; [reflexivity|].
  split; [|repeat split].
  rewrite <- app_assoc. f_equal.
  change (repeat Receive (List.length pre) ++ [Receive]
          = Receive :: repeat Receive (List.length pre)).
  clear. induction (List.length pre) as [|n IH]; [reflexivity|].
  simpl. rewrite IH. reflexivity.
Qed.

(** A fault of the transport behind deliveries that are passed over. *)
Lemma _next_response_fault (wait_id : value) (w : world)
      (pre : list (N * reaction)) (dt : N) (e : exn)
      (rest : list (N * reaction)) :
  inbound w = pre ++ (dt, Fault e) :: rest ->
  forallb (passed_over wait_id) pre = true ->
  _next_response wait_id w
  = (Raise e, received dt rest (receive_n (List.length pre) w)).
Proof.
  intros E F.
  rewrite (ReceiveFacts._next_response_passes_over _ _ _ _ E F).
  destruct (ReceiveFacts.receive_n_inbound _ _ _ E) as [E' _].
  rewrite _next_response_turn.
  unfold receive. rewrite E'. reflexivity.
Qed.

(** Nothing but deliveries that are passed over. *)
Lemma _next_response_starves (wait_id : value) (w : world) :
  forallb (passed_over wait_id) (inbound w) = true ->
  _next_response wait_id w
  = (Pending, log Receive (receive_n (List.length (inbound w)) w)).
Proof.
  intro F.
  assert (E : inbound w = inbound w ++ []) by (rewrite app_nil_r; reflexivity).
  rewrite (ReceiveFacts._next_response_passes_over _ _ _ _ E F).
  destruct (ReceiveFacts.receive_n_inbound _ _ _ E) as [E' _].
  rewrite _next_response_turn.
  unfold receive. rewrite E'. reflexivity.
Qed.

End ReachFacts.

(** ** What a receive touches, and what it can raise *)

Module FrameFacts.
Import Py Transport Client Script LoopFacts.

Lemma took_pending (w : world) : took [] true w (log Receive w).
Proof.
  unfold took. simpl. rewrite Z.add_0_r. repeat split; reflexivity.
Qed.

Lemma took_nothing (w : world) : took [] false w w.
Proof.
  unfold took. simpl. rewrite Z.add_0_r, app_nil_r. repeat split; reflexivity.
Qed.

Lemma took_one (w : world) (dt : N) (r : reaction)
      (rest : list (N * reaction)) :
  inbound w = (dt, r) :: rest ->
  took [(dt, r)] false w (received dt rest w).
Proof.
  intro E. unfold took. simpl. rewrite E, Z.add_0_r.
  repeat split; reflexivity.
Qed.

Lemma total_ticks_app (a b : list (N * reaction)) :
  total_ticks (a ++ b) = total_ticks a + total_ticks b.
Proof.
  induction a as [|[dt r] a IH]; simpl; [reflexivity|].
  unfold total_ticks in *. simpl. rewrite IH. lia.
Qed.

Lemma took_app (c1 c2 : list (N * reaction)) (pending : bool)
      (w w1 w2 : world) :
  took c1 false w w1 -> took c2 pending w1 w2 ->
  took (c1 ++ c2) pending w w2.
Proof.
  intros (I1 & N1 & T1 & C1 & S1 & U1) (I2 & N2 & T2 & C2 & S2 & U2).
  unfold took.
  rewrite I1, I2, N2, N1, T2, T1, C2, C1, S2, S1, U2, U1.
  rewrite total_ticks_app, !length_app, <- !app_assoc, Nat.add_0_r.
  rewrite <- repeat_app, <- Nat.add_assoc.
  repeat split; try reflexivity; lia.
Qed.

(** [_next_response] only ever calls [receive()]. *)
Lemma _next_response_took (wait_id : value) :
  forall (w : world) (o : outcome dict) (w' : world),
    _next_response wait_id w = (o, w') ->
    exists consumed, took consumed (is_pending o) w w'.
Proof.
  intro w.
  induction w as [w IH] using inbound_ind.
  intros o w' H.
  rewrite _next_response_turn in H.
  unfold receive in H.
  destruct (inbound w) as [|[dt [m|e]] rest] eqn:E.
  - inversion H; subst. exists []. apply took_pending.
  - pose proof (took_one w dt (Deliver m) rest E) as One.
    assert (Later : _next_response wait_id (received dt rest w) = (o, w') ->
                    exists consumed, took consumed (is_pending o) w w').
    { intro H'.
      destruct (IH (received dt rest w) ltac:(simpl; lia) o w' H')
        as [c Hc].
      exists ([(dt, Deliver m)] ++ c). eapply took_app; eassumption. }
    assert (Here : (Return m, received dt rest w) = (o, w') ->
                   exists consumed, took consumed (is_pending o) w w').
    { intro H'. inversion H'; subst. exists [(dt, Deliver m)]. exact One. }
    destruct (_is_keep_alive_response m); [auto|].
    destruct (is_none wait_id); [auto|].
    destruct (dict_getitem "id" m) as [id|e].
    + destruct (py_eq id wait_id); auto.
    + inversion H; subst. exists [(dt, Deliver m)]. exact One.
  - inversion H; subst. exists [(dt, Fault e)].
    apply (took_one w dt (Fault e) rest E).
Qed.

Lemma gql_receive_took (wait_id : value) (w : world)
      (o : outcome value) (w' : world) :
  gql_receive wait_id w = (o, w') ->
  exists consumed, took consumed (is_pending o) w w'.
Proof.
  unfold gql_receive, bind.
  destruct (_next_response wait_id w) as [[r| e |] w1] eqn:N; intro H.
  - destruct (_next_response_took _ _ _ _ N) as [c Hc].
    unfold lift in H.
    destruct (_response_payload r); inversion H; subst; exists c; exact Hc.
  - inversion H; subst. exact (_next_response_took _ _ _ _ N).
  - inversion H; subst. exact (_next_response_took _ _ _ _ N).
Qed.

Lemma gql_wait_response_took (TIMEOUT : Z) (clock_seconds : Z -> float)
      (response_checker : value -> bool) :
  forall (w : world) (timeout : number) (o : outcome value) (w' : world),
    gql_wait_response TIMEOUT clock_seconds response_checker (Some timeout) w
    = (o, w') ->
    exists consumed, took consumed (is_pending o) w w'.
Proof.
  intro w.
  induction w as [w IH] using inbound_ind.
  intros timeout o w' H.
  rewrite gql_wait_response_turn in H.
  destruct (positive timeout).
  - destruct (gql_receive VNone w) as [[response| e |] w1] eqn:R.
    + destruct (gql_receive_inbound _ _ _ _ R ltac:(discriminate)) as [L _].
      destruct (gql_receive_took _ _ _ _ R) as [c1 H1].
      destruct (response_checker response).
      * inversion H; subst. exists c1. exact H1.
      * destruct (minus_float timeout _) as [timeout'|e].
        -- destruct (IH w1 L _ _ _ H) as [c2 H2].
           exists (c1 ++ c2). eapply took_app; eassumption.
        -- inversion H; subst. exists c1. exact H1.
    + destruct (gql_receive_inbound _ _ _ _ R ltac:(discriminate)) as [L _].
      destruct (gql_receive_took _ _ _ _ R) as [c1 H1].
      destruct e;
        try (inversion H; subst; exists c1; exact H1).
      destruct (minus_float timeout _) as [timeout'|e].
      * destruct (IH w1 L _ _ _ H) as [c2 H2].
        exists (c1 ++ c2). eapply took_app; eassumption.
      * inversion H; subst. exists c1. exact H1.
    + inversion H; subst. exact (gql_receive_took _ _ _ _ R).
  - inversion H; subst. exists []. apply took_nothing.
Qed.

(** What [_response_payload] can raise. *)
Lemma _response_payload_raises (r : dict) (e : exn) :
  _response_payload r = inr e ->
  e = TypeError
  \/ exists d errors,
      e = GraphqlWsResponseError (VDict d) errors
      /\ dict_lookup "payload" r = Some (VDict d)
      /\ dict_lookup "errors" d = Some errors.
Proof.
  unfold _response_payload, dict_get.
  destruct (dict_lookup "payload" r) as [payload|]; [|discriminate].
  destruct payload as [|b|z|x|l|d]; simpl is_none; cbv iota.
  - discriminate.
  - simpl. intro H. inversion H. auto.
  - simpl. intro H. inversion H. auto.
  - unfold py_in, new_GraphqlWsResponseError. unfold py_in.
    destruct (substring_of "errors" x); [|discriminate].
    simpl. intro H. inversion H. auto.
  - unfold py_in, new_GraphqlWsResponseError. unfold py_in.
    destruct (existsb (py_eq (VStr "errors")) l); [|discriminate].
    simpl. intro H. inversion H. auto.
  - unfold new_GraphqlWsResponseError.
    rewrite MessageFacts.py_in_dict.
    unfold py_getitem, dict_getitem.
    destruct (dict_lookup "errors" d) as [errors|] eqn:E; [|discriminate].
    intro H. inversion H; subst.
    right. exists d, errors. auto.
Qed.

(** What [_next_response] can raise. *)
Lemma _next_response_raises (wait_id : value) :
  forall (w : world) (e : exn) (w' : world),
    _next_response wait_id w = (Raise e, w') ->
    (exists dt, In (dt, Fault e) (inbound w))
    \/ (e = KeyError "id" /\ is_none wait_id = false).
Proof.
  intro w.
  induction w as [w IH] using inbound_ind.
  intros e w' H.
  rewrite _next_response_turn in H.
  unfold receive in H.
  destruct (inbound w) as [|[dt [m|e0]] rest] eqn:E; [discriminate| |].
  - assert (Later : _next_response wait_id (received dt rest w) = (Raise e, w')
                    -> (exists dt', In (dt', Fault e)
                                       ((dt, Deliver m) :: rest))
                       \/ (e = KeyError "id" /\ is_none wait_id = false)).
    { intro H'.
      destruct (IH (received dt rest w) ltac:(simpl; lia) e w' H')
        as [[dt' I]|K]; [|auto].
      left. exists dt'. right. exact I. }
    destruct (_is_keep_alive_response m); [auto|].
    destruct (is_none wait_id) eqn:W; [discriminate|].
    unfold dict_getitem in H.
    destruct (dict_lookup "id" m) as [id|].
    + destruct (py_eq id wait_id); [discriminate | auto].
    + inversion H; subst. auto.
  - inversion H; subst. left. exists dt. left. reflexivity.
Qed.

End FrameFacts.

(** ** Further properties of the client *)

(** X1: a message counts as a keep-alive exactly when its [type] is the
    string ["ka"]; its other fields play no part, and a message without
    [type] is never one. *)
Theorem X1_keep_alive_is_type_ka :
  forall m : dict,
    _is_keep_alive_response m = true
    <-> dict_lookup "type" m = Some (VStr "ka").
Proof. exact ReachFacts.keep_alive_iff. Qed.

(** X2: [_response_payload] raises the response error exactly for a
    payload that is a mapping with an [errors] key; the error then
    carries the payload as [response] and the value under the key as
    [errors]. *)
Theorem X2_response_error_iff_errors_key :
  forall (r : dict) (payload errors : value),
    _response_payload r = inr (GraphqlWsResponseError payload errors)
    <-> exists d,
        payload = VDict d
        /\ dict_lookup "payload" r = Some (VDict d)
        /\ dict_lookup "errors" d = Some errors.
Proof.
  intros r payload errors. split.
  - intro H.
    destruct (FrameFacts._response_payload_raises _ _ H)
      as [T|[d [e [E [P L]]]]]; [discriminate|].
    inversion E; subst. exists d. auto.
  - intros [d [-> [P L]]].
    exact (MessageFacts._response_payload_errors _ _ _ P L).
Qed.

(** X3: the exceptions [gql_receive] can raise.  It is a fault the
    transport raised on a [receive()] of the stream, or [KeyError] on
    ["id"] (only with a wait identifier set), or [TypeError], or the
    response error of a mapping payload with an [errors] key: never the
    assertion error of the constructor of the response error. *)
Theorem X3_gql_receive_exceptions :
  forall (wait_id : value) (w : world) (e : exn) (w' : world),
    gql_receive wait_id w = (Raise e, w') ->
    (exists dt, In (dt, Fault e) (inbound w))
    \/ (e = KeyError "id" /\ is_none wait_id = false)
    \/ e = TypeError
    \/ (exists d errors,
          e = GraphqlWsResponseError (VDict d) errors
          /\ dict_lookup "errors" d = Some errors).
Proof.
  intros wait_id w e w'.
  unfold gql_receive, bind.
  destruct (_next_response wait_id w) as [[r| e0 |] w1] eqn:N; intro H.
  - unfold lift in H.
    destruct (_response_payload r) as [p|e1] eqn:P; [discriminate|].
    inversion H; subst.
    destruct (FrameFacts._response_payload_raises _ _ P)
      as [T|[d [errors [E [_ L]]]]]; [auto|].
    right. right. right. exists d, errors. auto.
  - inversion H; subst.
    destruct (FrameFacts._next_response_raises _ _ _ _ N) as [F|K]; auto.
  - discriminate.
Qed.

(** X4: without a wait identifier, [gql_receive] answers with the first
    message that is not a keep-alive, whatever its [id], and also when
    it has none: the keep-alives before it are taken off the stream and
    the [id] is not read. *)
Theorem X4_receive_without_wait_id :
  forall (w : world) (pre : list (N * reaction)) (dt : N) (m : dict)
         (rest : list (N * reaction)),
    inbound w = pre ++ (dt, Deliver m) :: rest ->
    forallb (passed_over VNone) pre = true ->
    _is_keep_alive_response m = false ->
    _next_response VNone w
    = (Return m, received dt rest (receive_n (List.length pre) w))
    /\ gql_receive VNone w
       = lift (_response_payload m)
              (received dt rest (receive_n (List.length pre) w))
    /\ inbound (received dt rest (receive_n (List.length pre) w)) = rest.
Proof.
  intros w pre dt m rest E F K.
  split; [|split].
  - apply ReachFacts._next_response_reaches; auto.
  - apply ReachFacts.gql_receive_reaches; auto.
  - reflexivity.
Qed.

(** X5: a fault of the transport leaves the receive loop as it is.
    When [receive()] raises behind deliveries that were passed over,
    [_next_response] and [gql_receive] raise that same exception; the
    deliveries passed over are gone from the stream and what follows
    the fault is still there. *)
Theorem X5_transport_fault_propagates :
  forall (wait_id : value) (w : world) (pre : list (N * reaction)) (dt : N)
         (e : exn) (rest : list (N * reaction)),
    inbound w = pre ++ (dt, Fault e) :: rest ->
    forallb (passed_over wait_id) pre = true ->
    _next_response wait_id w
    = (Raise e, received dt rest (receive_n (List.length pre) w))
    /\ gql_receive wait_id w
       = (Raise e, received dt rest (receive_n (List.length pre) w))
    /\ inbound (received dt rest (receive_n (List.length pre) w)) = rest.
Proof.
  intros wait_id w pre dt e rest E F.
  pose proof (ReachFacts._next_response_fault _ _ _ _ _ _ E F) as N.
  split; [exact N|].
  split; [|reflexivity].
  unfold gql_receive, bind. rewrite N. reflexivity.
Qed.

(** X6: a receive that finds nothing to return never returns.  When
    every delivery of the stream is passed over (keep-alives and
    messages of other identifiers), [gql_receive] takes them all off the
    stream and is left waiting on one more [receive()]. *)
Theorem X6_receive_starves :
  forall (wait_id : value) (w : world),
    forallb (passed_over wait_id) (inbound w) = true ->
    gql_receive wait_id w
    = (Pending, log Receive (receive_n (List.length (inbound w)) w))
    /\ inbound (log Receive (receive_n (List.length (inbound w)) w)) = [].
Proof.
  intros wait_id w F.
  split.
  - unfold gql_receive, bind.
    rewrite (ReachFacts._next_response_starves _ _ F). reflexivity.
  - assert (E : inbound w = inbound w ++ [])
      by (rewrite app_nil_r; reflexivity).
    destruct (ReceiveFacts.receive_n_inbound _ _ _ E) as [E' _].
    exact E'.
Qed.

(** X7: a receive does nothing but receive.  However [gql_receive]
    ends, it has taken a prefix of the stream, one [receive()] per
    delivery (one more when it ends suspended); the clock has moved by
    the ticks of that prefix; nothing was sent, no identifier minted,
    and the rest of the stream is untouched. *)
Theorem X7_gql_receive_only_receives :
  forall (wait_id : value) (w : world) (o : outcome value) (w' : world),
    gql_receive wait_id w = (o, w') ->
    exists consumed, took consumed (is_pending o) w w'.
Proof. exact FrameFacts.gql_receive_took. Qed.

Lemma X3_gql_receive_exceptions_witness :
  gql_receive (VStr "X") (scripted stream_Y_timeout)
  = (Raise TimeoutError, receive_n 2 (scripted stream_Y_timeout))
  /\ ((exists dt, In (dt, Fault TimeoutError)
                     (inbound (scripted stream_Y_timeout)))
      \/ (TimeoutError = KeyError "id" /\ is_none (VStr "X") = false)
      \/ TimeoutError = TypeError
      \/ (exists d errors,
            TimeoutError = GraphqlWsResponseError (VDict d) errors
            /\ dict_lookup "errors" d = Some errors)).
Proof.
  split; [reflexivity|].
  exact (X3_gql_receive_exceptions
           (VStr "X") (scripted stream_Y_timeout) TimeoutError _ eq_refl).
Defined.

Lemma X4_receive_without_wait_id_witness :
  (inbound (scripted stream_ka_no_id)
   = [(1%N, Deliver keep_alive)]
       ++ (1%N, Deliver message_no_id) :: [(1%N, Deliver message_X)]
   /\ forallb (passed_over VNone) [(1%N, Deliver keep_alive)] = true
   /\ _is_keep_alive_response message_no_id = false)
  /\ gql_receive VNone (scripted stream_ka_no_id)
     = (Return data_1,
        received 1 [(1%N, Deliver message_X)]
                 (receive_n 1 (scripted stream_ka_no_id))).
Proof.
  split; [repeat split|].
  exact (proj1 (proj2 (X4_receive_without_wait_id
                         (scripted stream_ka_no_id)
                         [(1%N, Deliver keep_alive)] 1%N message_no_id
                         [(1%N, Deliver message_X)]
                         eq_refl eq_refl eq_refl))).
Defined.

Lemma X5_transport_fault_propagates_witness :
  (inbound (scripted stream_Y_timeout)
   = [(1%N, Deliver message_Y)]
       ++ (3%N, Fault TimeoutError) :: [(1%N, Deliver message_X)]
   /\ forallb (passed_over (VStr "X")) [(1%N, Deliver message_Y)] = true)
  /\ gql_receive (VStr "X") (scripted stream_Y_timeout)
     = (Raise TimeoutError,
        received 3 [(1%N, Deliver message_X)]
                 (receive_n 1 (scripted stream_Y_timeout))).
Proof.
  split; [repeat split|].
  exact (proj1 (proj2 (X5_transport_fault_propagates
                         (VStr "X") (scripted stream_Y_timeout)
                         [(1%N, Deliver message_Y)] 3%N TimeoutError
                         [(1%N, Deliver message_X)] eq_refl eq_refl))).
Defined.

Lemma X6_receive_starves_witness :
  forallb (passed_over (VStr "X")) (inbound (scripted stream_ka_Y)) = true
  /\ gql_receive (VStr "X") (scripted stream_ka_Y)
     = (Pending, log Receive (receive_n 2 (scripted stream_ka_Y))).
Proof.
  split; [reflexivity|].
  exact (proj1 (X6_receive_starves (VStr "X") (scripted stream_ka_Y) eq_refl)).
Defined.

Lemma X7_gql_receive_only_receives_witness :
  gql_receive (VStr "X") (scripted stream_ka_ka_X)
  = (Return data_1, receive_n 3 (scripted stream_ka_ka_X))
  /\ exists consumed,
      took consumed false (scripted stream_ka_ka_X)
           (receive_n 3 (scripted stream_ka_ka_X)).
Proof.
  split; [reflexivity|].
  exact (X7_gql_receive_only_receives
           (VStr "X") (scripted stream_ka_ka_X) (Return data_1) _ eq_refl).
Defined.

(** ** Exchanges *)

Module ExchangeFacts.
Import Py Transport Client Script.

Lemma repeat_receive_twice (a b : nat) :
  repeat Receive (S a) ++ repeat Receive (S b)
  = repeat Receive (a + b + 2).
Proof.
  rewrite <- repeat_app. f_equal. lia.
Qed.

(** Two receives in a row on the same identifier, each reaching its
    message behind deliveries that are passed over. *)
Lemma gql_receive_twice (wait_id : value) (w : world)
      (pre1 pre2 : list (N * reaction)) (d1 d2 : N) (m1 m2 : dict)
      (rest : list (N * reaction)) :
  inbound w = pre1 ++ (d1, Deliver m1) :: pre2 ++ (d2, Deliver m2) :: rest ->
  forallb (passed_over wait_id) pre1 = true ->
  forallb (passed_over wait_id) pre2 = true ->
  _is_keep_alive_response m1 = false ->
  _is_keep_alive_response m2 = false ->
  (exists id, dict_lookup "id" m1 = Some id /\ py_eq id wait_id = true) ->
  (exists id, dict_lookup "id" m2 = Some id /\ py_eq id wait_id = true) ->
  exists w1 w2,
    gql_receive wait_id w = lift (_response_payload m1) w1
    /\ inbound w1 = pre2 ++ (d2, Deliver m2) :: rest
    /\ gql_receive wait_id w1 = lift (_response_payload m2) w2
    /\ inbound w2 = rest
    /\ trace w1 = trace w ++ repeat Receive (S (List.length pre1))
    /\ trace w2
       = trace w ++ repeat Receive (List.length pre1 + List.length pre2 + 2).
Proof.
  intros E F1 F2 K1 K2 I1 I2.
  exists (received d1 (pre2 ++ (d2, Deliver m2) :: rest)
                   (receive_n (List.length pre1) w)).
  exists (received d2 rest
                   (receive_n (List.length pre2)
                      (received d1 (pre2 ++ (d2, Deliver m2) :: rest)
                                (receive_n (List.length pre1) w)))).
  destruct (ReachFacts.reached_world _ _ _ _ _ E) as [E1 [T1 _]].
  destruct (ReachFacts.reached_world _ _ _ _ _ E1) as [E2 [T2 _]].
  split.
  { apply ReachFacts.gql_receive_reaches; auto. }
  split; [exact E1|].
  split.
  { apply ReachFacts.gql_receive_reaches; auto. }
  split; [exact E2|].
  split; [exact T1|].
  rewrite T2, T1, <- app_assoc, repeat_receive_twice. reflexivity.
Qed.

End ExchangeFacts.

(** X8: [gql_execute] amid other traffic.  Keep-alives and messages of
    other identifiers that arrive before the data message, or between
    it and the complete message, are taken off the stream and dropped;
    the call returns the data payload, what follows the complete
    message is still in the stream, and the transport has seen the
    start message and one [receive()] per delivery taken. *)
Theorem X8_execute_amid_other_traffic :
  forall (uuid4_hex : nat -> string) (query : string) (variables : value)
         (w : world) (pre1 pre2 : list (N * reaction)) (d1 d2 : N)
         (data complete : dict) (rest : list (N * reaction))
         (payload last : value),
    let id := VStr (uuid4_hex (uuids_drawn w)) in
    hd None (send_faults w) = None ->
    inbound w
    = pre1 ++ (d1, Deliver data) :: pre2 ++ (d2, Deliver complete) :: rest ->
    forallb (passed_over id) pre1 = true ->
    forallb (passed_over id) pre2 = true ->
    _is_keep_alive_response data = false ->
    _is_keep_alive_response complete = false ->
    dict_lookup "id" data = Some id ->
    dict_lookup "id" complete = Some id ->
    _response_payload data = inl payload ->
    _response_payload complete = inl last ->
    exists w',
      gql_execute uuid4_hex query variables w = (Return payload, w')
      /\ inbound w' = rest
      /\ trace w'
         = trace w
           ++ Send (start_message id query variables)
              :: repeat Receive (List.length pre1 + List.length pre2 + 2).
Proof.
  intros uuid4_hex query variables w pre1 pre2 d1 d2 data complete rest
         payload last id S E F1 F2 K1 K2 I1 I2 P1 P2.
  destruct (ExchangeFacts.gql_receive_twice
              id (sent (start_message id query variables) (drawn w))
              pre1 pre2 d1 d2 data complete rest E F1 F2 K1 K2)
    as [w1 [w2 [R1 [_ [R2 [E2 [_ T2]]]]]]].
  { exists id. split; [exact I1 | apply MessageFacts.py_eq_str_refl]. }
  { exists id. split; [exact I2 | apply MessageFacts.py_eq_str_refl]. }
  rewrite P1 in R1. rewrite P2 in R2.
  exists w2.
  split; [|split].
  - unfold gql_execute.
    erewrite MonadFacts.bind_return;
      [|rewrite MessageFacts.gql_start_run, S; reflexivity].
    cbv beta.
    rewrite (MonadFacts.bind_return _ _ _ _ _ R1). cbv beta.
    rewrite (MonadFacts.bind_return _ _ _ _ _ R2).
    reflexivity.
  - exact E2.
  - rewrite T2. simpl. rewrite <- app_assoc. reflexivity.
Qed.

(** X9: [gql_execute] without a terminal message.  When the data
    message is followed only by keep-alives and by messages tagged with
    other identifiers, and then by silence, the call does not return
    the data payload: it takes those deliveries off the stream and
    stays suspended on a [receive()]. *)
Theorem X9_execute_waits_for_terminal_message :
  forall (uuid4_hex : nat -> string) (query : string) (variables : value)
         (w : world) (pre1 pre2 : list (N * reaction)) (d1 : N)
         (data : dict) (payload : value),
    let id := VStr (uuid4_hex (uuids_drawn w)) in
    hd None (send_faults w) = None ->
    inbound w = pre1 ++ (d1, Deliver data) :: pre2 ->
    forallb (passed_over id) pre1 = true ->
    forallb (passed_over id) pre2 = true ->
    _is_keep_alive_response data = false ->
    dict_lookup "id" data = Some id ->
    _response_payload data = inl payload ->
    exists w',
      gql_execute uuid4_hex query variables w = (Pending, w')
      /\ inbound w' = [].
Proof.
  intros uuid4_hex query variables w pre1 pre2 d1 data payload id
         S E F1 F2 K I P.
  pose (w0 := sent (start_message id query variables) (drawn w)).
  pose (w1 := received d1 pre2 (receive_n (List.length pre1) w0)).
  assert (R1 : gql_receive id w0 = (Return payload, w1)).
  { unfold w1.
    rewrite (ReachFacts.gql_receive_reaches id w0 pre1 d1 data pre2 E F1 K).
    - rewrite P. reflexivity.
    - right. exists id. split; [exact I | apply MessageFacts.py_eq_str_refl]. }
  assert (F2' : forallb (passed_over id) (inbound w1) = true) by exact F2.
  exists (log Receive (receive_n (List.length (inbound w1)) w1)).
  split.
  - unfold gql_execute.
    erewrite MonadFacts.bind_return;
      [|rewrite MessageFacts.gql_start_run, S; reflexivity].
    cbv beta.
    rewrite (MonadFacts.bind_return _ _ _ _ _ R1). cbv beta.
    apply MonadFacts.bind_pending.
    unfold gql_receive.
    apply MonadFacts.bind_pending.
    exact (ReachFacts._next_response_starves id w1 F2').
  - assert (E1 : inbound w1 = inbound w1 ++ [])
      by (rewrite app_nil_r; reflexivity).
    destruct (ReceiveFacts.receive_n_inbound _ _ _ E1) as [E' _].
    exact E'.
Qed.

(** X10: errors in the second message of an exchange.  When the message
    that [gql_execute] takes for the terminal one carries a mapping
    payload with an [errors] key, the call raises the response error of
    that message and the data payload it had received is not
    returned. *)
Theorem X10_execute_raises_on_terminal_errors :
  forall (uuid4_hex : nat -> string) (query : string) (variables : value)
         (w : world) (pre1 pre2 : list (N * reaction)) (d1 d2 : N)
         (data last : dict) (rest : list (N * reaction))
         (payload : value) (d : dict) (errors : value),
    let id := VStr (uuid4_hex (uuids_drawn w)) in
    hd None (send_faults w) = None ->
    inbound w
    = pre1 ++ (d1, Deliver data) :: pre2 ++ (d2, Deliver last) :: rest ->
    forallb (passed_over id) pre1 = true ->
    forallb (passed_over id) pre2 = true ->
    _is_keep_alive_response data = false ->
    _is_keep_alive_response last = false ->
    dict_lookup "id" data = Some id ->
    dict_lookup "id" last = Some id ->
    _response_payload data = inl payload ->
    dict_lookup "payload" last = Some (VDict d) ->
    dict_lookup "errors" d = Some errors ->
    exists w',
      gql_execute uuid4_hex query variables w
      = (Raise (GraphqlWsResponseError (VDict d) errors), w')
      /\ inbound w' = rest.
Proof.
  intros uuid4_hex query variables w pre1 pre2 d1 d2 data last rest
         payload d errors id S E F1 F2 K1 K2 I1 I2 P1 P2 L.
  destruct (ExchangeFacts.gql_receive_twice
              id (sent (start_message id query variables) (drawn w))
              pre1 pre2 d1 d2 data last rest E F1 F2 K1 K2)
    as [w1 [w2 [R1 [_ [R2 [E2 _]]]]]].
  { exists id. split; [exact I1 | apply MessageFacts.py_eq_str_refl]. }
  { exists id. split; [exact I2 | apply MessageFacts.py_eq_str_refl]. }
  rewrite P1 in R1.
  rewrite (MessageFacts._response_payload_errors _ _ _ P2 L) in R2.
  exists w2.
  split; [|exact E2].
  unfold gql_execute.
  erewrite MonadFacts.bind_return;
    [|rewrite MessageFacts.gql_start_run, S; reflexivity].
  cbv beta.
  rewrite (MonadFacts.bind_return _ _ _ _ _ R1). cbv beta.
  rewrite (MonadFacts.bind_raise _ _ _ _ _ R2).
  reflexivity.
Qed.

Lemma X8_execute_amid_other_traffic_witness :
  (hd None (send_faults (scripted stream_interleaved)) = None
   /\ inbound (scripted stream_interleaved)
      = [(1%N, Deliver keep_alive)]
          ++ (1%N, Deliver data_f)
             :: [(1%N, Deliver message_Y); (1%N, Deliver keep_alive)]
                ++ (1%N, Deliver complete_f) :: [(1%N, Deliver message_X)]
   /\ forallb (passed_over (VStr "f")) [(1%N, Deliver keep_alive)] = true
   /\ forallb (passed_over (VStr "f"))
              [(1%N, Deliver message_Y); (1%N, Deliver keep_alive)] = true
   /\ _response_payload data_f = inl data_1
   /\ _response_payload complete_f = inl VNone)
  /\ exists w',
      gql_execute sample_uuid "{ x }" VNone (scripted stream_interleaved)
      = (Return data_1, w')
      /\ inbound w' = [(1%N, Deliver message_X)]
      /\ trace w'
         = [Send (start_message (VStr "f") "{ x }" VNone);
            Receive; Receive; Receive; Receive; Receive].
Proof.
  split; [repeat split|].
  exact (X8_execute_amid_other_traffic
           sample_uuid "{ x }" VNone (scripted stream_interleaved)
           [(1%N, Deliver keep_alive)]
           [(1%N, Deliver message_Y); (1%N, Deliver keep_alive)]
           1%N 1%N data_f complete_f [(1%N, Deliver message_X)] data_1 VNone
           eq_refl eq_refl eq_refl eq_refl eq_refl eq_refl eq_refl eq_refl
           eq_refl eq_refl).
Defined.

Lemma X9_execute_waits_for_terminal_message_witness :
  (hd None (send_faults (scripted stream_incomplete)) = None
   /\ inbound (scripted stream_incomplete)
      = [] ++ (1%N, Deliver data_f) :: [(1%N, Deliver message_Y)]
   /\ forallb (passed_over (VStr "f")) [(1%N, Deliver message_Y)] = true
   /\ _response_payload data_f = inl data_1)
  /\ exists w',
      gql_execute sample_uuid "{ x }" VNone (scripted stream_incomplete)
      = (Pending, w')
      /\ inbound w' = [].
Proof.
  split; [repeat split|].
  exact (X9_execute_waits_for_terminal_message
           sample_uuid "{ x }" VNone (scripted stream_incomplete)
           [] [(1%N, Deliver message_Y)] 1%N data_f data_1
           eq_refl eq_refl eq_refl eq_refl eq_refl eq_refl eq_refl).
Defined.

Lemma X10_execute_raises_on_terminal_errors_witness :
  (hd None (send_faults (scripted stream_late_failure)) = None
   /\ inbound (scripted stream_late_failure)
      = [] ++ (1%N, Deliver data_f)
           :: [] ++ (1%N, Deliver failed_f) :: [(1%N, Deliver message_X)]
   /\ _response_payload data_f = inl data_1
   /\ dict_lookup "payload" failed_f = Some (VDict errors_1)
   /\ dict_lookup "errors" errors_1 = Some (VList [VStr "boom"]))
  /\ exists w',
      gql_execute sample_uuid "{ x }" VNone (scripted stream_late_failure)
      = (Raise (GraphqlWsResponseError (VDict errors_1) (VList [VStr "boom"])),
         w')
      /\ inbound w' = [(1%N, Deliver message_X)].
Proof.
  split; [repeat split|].
  exact (X10_execute_raises_on_terminal_errors
           sample_uuid "{ x }" VNone (scripted stream_late_failure)
           [] [] 1%N 1%N data_f failed_f [(1%N, Deliver message_X)]
           data_1 errors_1 (VList [VStr "boom"])
           eq_refl eq_refl eq_refl eq_refl eq_refl eq_refl eq_refl eq_refl
           eq_refl eq_refl eq_refl).
Defined.

(** X11: [gql_subscribe] without confirmation sends the start message
    and returns its identifier without a single [receive()]: the stream
    is left as it was. *)
Theorem X11_subscribe_without_confirmation :
  forall (uuid4_hex : nat -> string) (query : string) (variables : value)
         (w : world),
    let id := VStr (uuid4_hex (uuids_drawn w)) in
    gql_subscribe uuid4_hex query variables false w
    = (match hd None (send_faults w) with
       | None => Return id
       | Some e => Raise e
       end, sent (start_message id query variables) (drawn w))
    /\ inbound (sent (start_message id query variables) (drawn w))
       = inbound w
    /\ trace (sent (start_message id query variables) (drawn w))
       = trace w ++ [Send (start_message id query variables)].
Proof.
  intros uuid4_hex query variables w id.
  split; [|split; reflexivity].
  unfold gql_subscribe, bind.
  rewrite MessageFacts.gql_start_run.
  destruct (hd None (send_faults w)); reflexivity.
Qed.

(** X12: [gql_subscribe] with confirmation takes exactly one response
    on the new identifier, dropping what is passed over before it.  It
    returns the identifier, not the payload of the confirmation; when
    that payload makes [_response_payload] raise, the call raises and
    the identifier is not returned.  What follows the confirmation is
    still in the stream. *)
Theorem X12_subscribe_with_confirmation :
  forall (uuid4_hex : nat -> string) (query : string) (variables : value)
         (w : world) (pre : list (N * reaction)) (dt : N) (confirm : dict)
         (rest : list (N * reaction)),
    let id := VStr (uuid4_hex (uuids_drawn w)) in
    hd None (send_faults w) = None ->
    inbound w = pre ++ (dt, Deliver confirm) :: rest ->
    forallb (passed_over id) pre = true ->
    _is_keep_alive_response confirm = false ->
    dict_lookup "id" confirm = Some id ->
    exists w',
      gql_subscribe uuid4_hex query variables true w
      = (match _response_payload confirm with
         | inl _ => Return id
         | inr e => Raise e
         end, w')
      /\ inbound w' = rest
      /\ trace w'
         = trace w
           ++ Send (start_message id query variables)
              :: repeat Receive (S (List.length pre)).
Proof.
  intros uuid4_hex query variables w pre dt confirm rest id S E F K I.
  pose (w0 := sent (start_message id query variables) (drawn w)).
  exists (received dt rest (receive_n (List.length pre) w0)).
  destruct (ReachFacts.reached_world w0 pre dt (Deliver confirm) rest E)
    as [E1 [T1 _]].
  split; [|split].
  - unfold gql_subscribe.
    erewrite MonadFacts.bind_return;
      [|rewrite MessageFacts.gql_start_run, S; reflexivity].
    cbv beta.
    assert (R : gql_receive id w0
                = lift (_response_payload confirm)
                       (received dt rest (receive_n (List.length pre) w0))).
    { apply ReachFacts.gql_receive_reaches; auto.
      right. exists id. split; [exact I | apply MessageFacts.py_eq_str_refl]. }
    cbv iota. unfold bind at 1 2. unfold w0, id in R. rewrite R.
    destruct (_response_payload confirm); reflexivity.
  - exact E1.
  - rewrite T1. simpl. rewrite <- app_assoc. reflexivity.
Qed.

Lemma X12_subscribe_with_confirmation_witness :
  (hd None (send_faults (scripted stream_confirmed)) = None
   /\ inbound (scripted stream_confirmed)
      = [(1%N, Deliver keep_alive); (1%N, Deliver message_Y)]
          ++ (1%N, Deliver data_f) :: [(1%N, Deliver message_X)]
   /\ forallb (passed_over (VStr "f"))
              [(1%N, Deliver keep_alive); (1%N, Deliver message_Y)] = true
   /\ _is_keep_alive_response data_f = false
   /\ dict_lookup "id" data_f = Some (VStr "f"))
  /\ (exists w',
        gql_subscribe sample_uuid "{ x }" VNone true (scripted stream_confirmed)
        = (Return (VStr "f"), w')
        /\ inbound w' = [(1%N, Deliver message_X)]
        /\ trace w'
           = [Send (start_message (VStr "f") "{ x }" VNone);
              Receive; Receive; Receive])
  /\ (exists w',
        gql_subscribe sample_uuid "{ x }" VNone true (scripted stream_denied)
        = (Raise (GraphqlWsResponseError (VDict errors_1)
                                         (VList [VStr "boom"])), w')
        /\ inbound w' = [(1%N, Deliver message_X)]
        /\ trace w'
           = [Send (start_message (VStr "f") "{ x }" VNone); Receive]).
Proof.
  split; [repeat split|].
  split.
  - exact (X12_subscribe_with_confirmation
             sample_uuid "{ x }" VNone (scripted stream_confirmed)
             [(1%N, Deliver keep_alive); (1%N, Deliver message_Y)]
             1%N data_f [(1%N, Deliver message_X)]
             eq_refl eq_refl eq_refl eq_refl eq_refl).
  - exact (X12_subscribe_with_confirmation
             sample_uuid "{ x }" VNone (scripted stream_denied)
             [] 1%N failed_f [(1%N, Deliver message_X)]
             eq_refl eq_refl eq_refl eq_refl eq_refl).
Defined.

(** X13: a failing transport stops the handshake where it fails.  When
    [connect] raises, nothing is sent; when the send of the init
    message raises, no response is awaited; when the [receive()] raises
    (its timeout, say), the exception leaves the call unchanged; and on
    a stream that delivers nothing the call stays suspended. *)
Theorem X13_handshake_transport_failures :
  forall (TIMEOUT : Z) (w : world),
    (forall connect_only e,
        connect_fault w = Some e ->
        gql_connect_and_init TIMEOUT connect_only w
        = (Raise e, log (Connect TIMEOUT) w))
    /\ (forall e,
           connect_fault w = None ->
           hd None (send_faults w) = Some e ->
           gql_connect_and_init TIMEOUT false w
           = (Raise e, sent connection_init (log (Connect TIMEOUT) w)))
    /\ (forall dt e rest,
           connect_fault w = None ->
           hd None (send_faults w) = None ->
           inbound w = (dt, Fault e) :: rest ->
           gql_connect_and_init TIMEOUT false w
           = (Raise e,
              received dt rest
                       (sent connection_init (log (Connect TIMEOUT) w))))
    /\ (connect_fault w = None ->
        hd None (send_faults w) = None ->
        inbound w = [] ->
        gql_connect_and_init TIMEOUT false w
        = (Pending,
           log Receive (sent connection_init (log (Connect TIMEOUT) w)))).
Proof.
  intros TIMEOUT w.
  assert (Sent : forall o w',
             connect_fault w = None ->
             send connection_init (log (Connect TIMEOUT) w) = (o, w') ->
             (forall u, o = Return u ->
                        gql_connect_and_init TIMEOUT false w
                        = bind receive
                               (fun resp =>
                                  bind (lift (dict_getitem "type" resp))
                                       (fun ty =>
                                          if py_eq ty (VStr "connection_ack")
                                          then ret tt
                                          else raise AssertionError)) w')
             /\ (forall e, o = Raise e ->
                           gql_connect_and_init TIMEOUT false w
                           = (Raise e, w'))).
  { intros o w' C Sd.
    unfold gql_connect_and_init.
    rewrite (MonadFacts.bind_return _ _ _ _ _
               (MonadFacts.connect_ok TIMEOUT w C)).
    cbv beta. change (negb false) with true. cbv iota.
    split.
    - intros [] ->. exact (MonadFacts.bind_return _ _ _ _ _ Sd).
    - intros e ->. exact (MonadFacts.bind_raise _ _ _ _ _ Sd). }
  split; [|split; [|split]].
  - intros connect_only e C.
    unfold gql_connect_and_init, bind, connect. rewrite C. reflexivity.
  - intros e C S.
    apply (proj2 (Sent _ _ C (MonadFacts.send_outcome _ _))).
    change (hd None (send_faults (log (Connect TIMEOUT) w)))
      with (hd None (send_faults w)).
    rewrite S. reflexivity.
  - intros dt e rest C S E.
    rewrite (proj1 (Sent _ _ C (MonadFacts.send_ok
                                  _ (log (Connect TIMEOUT) w) S)) tt eq_refl).
    apply MonadFacts.bind_raise.
    unfold receive. simpl inbound. rewrite E. reflexivity.
  - intros C S E.
    rewrite (proj1 (Sent _ _ C (MonadFacts.send_ok
                                  _ (log (Connect TIMEOUT) w) S)) tt eq_refl).
    apply MonadFacts.bind_pending.
    unfold receive. simpl inbound. rewrite E. reflexivity.
Qed.

Lemma X13_handshake_transport_failures_witness :
  (connect_fault unreachable = Some (TransportError "refused")
   /\ gql_connect_and_init 60 false unreachable
      = (Raise (TransportError "refused"), log (Connect 60) unreachable))
  /\ (connect_fault broken_pipe = None
      /\ hd None (send_faults broken_pipe) = Some (TransportError "closed")
      /\ gql_connect_and_init 60 false broken_pipe
         = (Raise (TransportError "closed"),
            sent connection_init (log (Connect 60) broken_pipe)))
  /\ (inbound (scripted (tl stream_Y_timeout))
      = (3%N, Fault TimeoutError) :: [(1%N, Deliver message_X)]
      /\ gql_connect_and_init 60 false (scripted (tl stream_Y_timeout))
         = (Raise TimeoutError,
            received 3 [(1%N, Deliver message_X)]
                     (sent connection_init
                           (log (Connect 60)
                                (scripted (tl stream_Y_timeout))))))
  /\ (inbound (scripted []) = []
      /\ gql_connect_and_init 60 false (scripted [])
         = (Pending,
            log Receive (sent connection_init
                              (log (Connect 60) (scripted []))))).
Proof.
  destruct (X13_handshake_transport_failures 60 unreachable) as [H1 _].
  destruct (X13_handshake_transport_failures 60 broken_pipe) as [_ [H2 _]].
  destruct (X13_handshake_transport_failures
              60 (scripted (tl stream_Y_timeout))) as [_ [_ [H3 _]]].
  destruct (X13_handshake_transport_failures 60 (scripted []))
    as [_ [_ [_ H4]]].
  split; [split; [reflexivity | exact (H1 false _ eq_refl)]|].
  split; [split; [reflexivity|split; [reflexivity|exact (H2 _ eq_refl eq_refl)]]|].
  split; [split; [reflexivity|exact (H3 _ _ _ eq_refl eq_refl eq_refl)]|].
  split; [reflexivity | exact (H4 eq_refl eq_refl eq_refl)].
Defined.

(** X14: the handshake does not skip keep-alives.  It reads its one
    response straight from the transport, so a keep-alive that arrives
    before the acknowledgement makes the call raise [AssertionError]. *)
Theorem X14_handshake_rejects_keep_alive :
  forall (TIMEOUT : Z) (w : world) (dt : N) (m : dict)
         (rest : list (N * reaction)),
    connect_fault w = None ->
    hd None (send_faults w) = None ->
    inbound w = (dt, Deliver m) :: rest ->
    _is_keep_alive_response m = true ->
    gql_connect_and_init TIMEOUT false w
    = (Raise AssertionError,
       received dt rest (sent connection_init (log (Connect TIMEOUT) w))).
Proof.
  intros TIMEOUT w dt m rest C S E K.
  apply ReachFacts.keep_alive_iff in K.
  unfold gql_connect_and_init.
  rewrite (MonadFacts.bind_return _ _ _ _ _
             (MonadFacts.connect_ok TIMEOUT w C)).
  cbv beta. change (negb false) with true. cbv iota.
  rewrite (MonadFacts.bind_return _ _ _ _ _
             (MonadFacts.send_ok _ (log (Connect TIMEOUT) w) S)).
  cbv beta.
  rewrite (MonadFacts.bind_return _ _ _ _ _
             (MonadFacts.receive_deliver
                (sent _ (log (Connect TIMEOUT) w)) dt m rest E)).
  unfold bind, lift, dict_getitem. rewrite K. reflexivity.
Qed.

Lemma X14_handshake_rejects_keep_alive_witness :
  (connect_fault (scripted stream_ka_Y) = None
   /\ hd None (send_faults (scripted stream_ka_Y)) = None
   /\ inbound (scripted stream_ka_Y)
      = (1%N, Deliver keep_alive) :: [(1%N, Deliver message_Y)]
   /\ _is_keep_alive_response keep_alive = true)
  /\ gql_connect_and_init 60 false (scripted stream_ka_Y)
     = (Raise AssertionError,
        received 1 [(1%N, Deliver message_Y)]
                 (sent connection_init
                       (log (Connect 60) (scripted stream_ka_Y)))).
Proof.
  split; [repeat split|].
  exact (X14_handshake_rejects_keep_alive
           60 (scripted stream_ka_Y) 1%N keep_alive
           [(1%N, Deliver message_Y)] eq_refl eq_refl eq_refl eq_refl).
Defined.

(** X15: the bounded wait returns the first response that satisfies the
    checker.  When a turn starts with a positive budget and its
    [gql_receive] returns a payload that satisfies the checker, the wait
    returns that payload at once, however long that receive took: the
    budget is only compared with 0 before a turn starts.  This holds
    after any number of earlier turns that timed out or brought
    responses failing the checker (keep-alives skipped inside a turn
    included), which are consumed for good. *)
Theorem X15_wait_response_returns_match :
  forall (TIMEOUT : Z) (clock_seconds : Z -> float)
         (response_checker : value -> bool) (w : world),
    (forall timeout response w',
        positive timeout = true ->
        gql_receive VNone w = (Return response, w') ->
        response_checker response = true ->
        gql_wait_response TIMEOUT clock_seconds response_checker
                          (Some timeout) w
        = (Return response, w'))
    /\ (forall f f' w1 response w',
           polls clock_seconds response_checker f w f' w1 ->
           PrimFloat.ltb 0 f' = true ->
           gql_receive VNone w1 = (Return response, w') ->
           response_checker response = true ->
           gql_wait_response TIMEOUT clock_seconds response_checker
                             (Some (Float f)) w
           = (Return response, w')).
Proof.
  intros TIMEOUT clock_seconds response_checker w.
  assert (Turn : forall timeout v response w',
             positive timeout = true ->
             gql_receive VNone v = (Return response, w') ->
             response_checker response = true ->
             gql_wait_response TIMEOUT clock_seconds response_checker
                               (Some timeout) v
             = (Return response, w')).
  { intros timeout v response w' P R C.
    rewrite LoopFacts.gql_wait_response_turn, P, R, C. reflexivity. }
  split.
  - intros timeout response w'. apply Turn.
  - intros f f' w1 response w' H P R C.
    rewrite (WaitFacts.gql_wait_response_polls _ _ _ _ _ _ _ H).
    apply Turn; assumption.
Qed.

Lemma X15_wait_response_returns_match_witness :
  (positive (Float 0.5) = true
   /\ gql_receive VNone (scripted stream_ka_ka_X)
      = (Return data_1, receive_n 3 (scripted stream_ka_ka_X))
   /\ is_data_1 data_1 = true)
  /\ gql_wait_response 60 tenths is_data_1 (Some (Float 0.5))
                       (scripted stream_ka_ka_X)
     = (Return data_1, receive_n 3 (scripted stream_ka_ka_X))
  /\ gql_wait_response 60 tenths is_data_1 (Some (Float 0.5))
                       (scripted stream_polled)
     = (Return data_1, receive_n 3 (scripted stream_polled)).
Proof.
  split; [repeat split|].
  split.
  - exact (proj1 (X15_wait_response_returns_match
                    60 tenths is_data_1 (scripted stream_ka_ka_X))
                 (Float 0.5) data_1 _ eq_refl eq_refl eq_refl).
  - eapply (proj2 (X15_wait_response_returns_match
                     60 tenths is_data_1 (scripted stream_polled))
                  0.5%float).
    + eapply polls_turn;
        [reflexivity | reflexivity
        | right; eexists; split; reflexivity |].
      eapply polls_turn;
        [reflexivity | reflexivity | left; reflexivity |].
      apply polls_done.
    + reflexivity.
    + reflexivity.
    + reflexivity.
Defined.

(** X16: the bounded wait swallows timeouts only.  When a turn starts
    with a positive budget and its [gql_receive] raises anything but
    the timeout error (the response error of an [errors] payload, say,
    or [TypeError]), the wait ends with that exception, after any
    number of earlier turns of polling; the checker is not asked. *)
Theorem X16_wait_response_propagates_errors :
  forall (TIMEOUT : Z) (clock_seconds : Z -> float)
         (response_checker : value -> bool) (w : world),
    (forall timeout e w',
        positive timeout = true ->
        gql_receive VNone w = (Raise e, w') ->
        e <> TimeoutError ->
        gql_wait_response TIMEOUT clock_seconds response_checker
                          (Some timeout) w
        = (Raise e, w'))
    /\ (forall f f' w1 e w',
           polls clock_seconds response_checker f w f' w1 ->
           PrimFloat.ltb 0 f' = true ->
           gql_receive VNone w1 = (Raise e, w') ->
           e <> TimeoutError ->
           gql_wait_response TIMEOUT clock_seconds response_checker
                             (Some (Float f)) w
           = (Raise e, w')).
Proof.
  intros TIMEOUT clock_seconds response_checker w.
  assert (Turn : forall timeout v e w',
             positive timeout = true ->
             gql_receive VNone v = (Raise e, w') ->
             e <> TimeoutError ->
             gql_wait_response TIMEOUT clock_seconds response_checker
                               (Some timeout) v
             = (Raise e, w')).
  { intros timeout v e w' P R N.
    rewrite LoopFacts.gql_wait_response_turn, P, R.
    destruct e; try reflexivity. congruence. }
  split.
  - intros timeout e w'. apply Turn.
  - intros f f' w1 e w' H P R N.
    rewrite (WaitFacts.gql_wait_response_polls _ _ _ _ _ _ _ H).
    apply Turn; assumption.
Qed.

Lemma X16_wait_response_propagates_errors_witness :
  (positive (Int 5) = true
   /\ gql_receive VNone (scripted stream_failed)
      = (Raise (GraphqlWsResponseError (VDict errors_1)
                                       (VList [VStr "boom"])),
         receive_n 1 (scripted stream_failed)))
  /\ gql_wait_response 60 tenths never (Some (Int 5)) (scripted stream_failed)
     = (Raise (GraphqlWsResponseError (VDict errors_1) (VList [VStr "boom"])),
        receive_n 1 (scripted stream_failed))
  /\ gql_wait_response 60 tenths never (Some (Float 0.5))
                       (scripted stream_poll_failed)
     = (Raise (GraphqlWsResponseError (VDict errors_1) (VList [VStr "boom"])),
        receive_n 2 (scripted stream_poll_failed)).
Proof.
  split; [repeat split|].
  split.
  - exact (proj1 (X16_wait_response_propagates_errors
                    60 tenths never (scripted stream_failed))
                 (Int 5) _ _ eq_refl eq_refl ltac:(discriminate)).
  - eapply (proj2 (X16_wait_response_propagates_errors
                     60 tenths never (scripted stream_poll_failed))
                  0.5%float).
    + eapply polls_turn;
        [reflexivity | reflexivity
        | right; eexists; split; reflexivity |].
      apply polls_done.
    + reflexivity.
    + reflexivity.
    + discriminate.
Defined.

(** X17: the bounded wait does nothing but receive.  However
    [gql_wait_response] ends, it has taken a prefix of the stream with
    one [receive()] per delivery (one more when it ends suspended), the
    clock has moved by the ticks of that prefix, and nothing was sent:
    the responses it skipped are not put back. *)
Theorem X17_wait_response_only_receives :
  forall (TIMEOUT : Z) (clock_seconds : Z -> float)
         (response_checker : value -> bool) (w : world)
         (timeout : number) (o : outcome value) (w' : world),
    gql_wait_response TIMEOUT clock_seconds response_checker (Some timeout) w
    = (o, w') ->
    exists consumed, took consumed (is_pending o) w w'.
Proof.
  intros TIMEOUT clock_seconds response_checker w timeout o w'.
  apply FrameFacts.gql_wait_response_took.
Qed.

Lemma X17_wait_response_only_receives_witness :
  gql_wait_response 60 tenths never (Some (Float 0.5)) (scripted stream_slow)
  = (Raise TimeoutError, receive_n 3 (scripted stream_slow))
  /\ exists consumed,
      took consumed false (scripted stream_slow)
           (receive_n 3 (scripted stream_slow)).
Proof.
  split; [reflexivity|].
  exact (X17_wait_response_only_receives
           60 tenths never (scripted stream_slow) (Float 0.5)
           (Raise TimeoutError) _ eq_refl).
Defined.

(** X18: after [gql_execute] failed on an [errors] payload, the
    exchange can still be drained by hand: one more [gql_receive] on
    the identifier takes the terminal message (and what is passed over
    before it) off the stream. *)
Theorem X18_drain_after_failed_execute :
  forall (uuid4_hex : nat -> string) (query : string) (variables : value)
         (w : world) (pre1 pre2 : list (N * reaction)) (d1 d2 : N)
         (data complete : dict) (rest : list (N * reaction))
         (d : dict) (errors last : value),
    let id := VStr (uuid4_hex (uuids_drawn w)) in
    hd None (send_faults w) = None ->
    inbound w
    = pre1 ++ (d1, Deliver data) :: pre2 ++ (d2, Deliver complete) :: rest ->
    forallb (passed_over id) pre1 = true ->
    forallb (passed_over id) pre2 = true ->
    _is_keep_alive_response data = false ->
    _is_keep_alive_response complete = false ->
    dict_lookup "id" data = Some id ->
    dict_lookup "id" complete = Some id ->
    dict_lookup "payload" data = Some (VDict d) ->
    dict_lookup "errors" d = Some errors ->
    _response_payload complete = inl last ->
    exists w1 w2,
      gql_execute uuid4_hex query variables w
      = (Raise (GraphqlWsResponseError (VDict d) errors), w1)
      /\ inbound w1 = pre2 ++ (d2, Deliver complete) :: rest
      /\ gql_receive id w1 = (Return last, w2)
      /\ inbound w2 = rest.
Proof.
  intros uuid4_hex query variables w pre1 pre2 d1 d2 data complete rest
         d errors last id S E F1 F2 K1 K2 I1 I2 P1 L P2.
  destruct (ExchangeFacts.gql_receive_twice
              id (sent (start_message id query variables) (drawn w))
              pre1 pre2 d1 d2 data complete rest E F1 F2 K1 K2)
    as [w1 [w2 [R1 [E1 [R2 [E2 _]]]]]].
  { exists id. split; [exact I1 | apply MessageFacts.py_eq_str_refl]. }
  { exists id. split; [exact I2 | apply MessageFacts.py_eq_str_refl]. }
  rewrite (MessageFacts._response_payload_errors _ _ _ P1 L) in R1.
  rewrite P2 in R2.
  exists w1, w2.
  split; [|auto].
  unfold gql_execute.
  erewrite MonadFacts.bind_return;
    [|rewrite MessageFacts.gql_start_run, S; reflexivity].
  cbv beta.
  rewrite (MonadFacts.bind_raise _ _ _ _ _ R1).
  reflexivity.
Qed.

Lemma X18_drain_after_failed_execute_witness :
  (hd None (send_faults (scripted stream_failed)) = None
   /\ inbound (scripted stream_failed)
      = [] ++ (1%N, Deliver failed_f) :: [] ++ (1%N, Deliver complete_f) :: []
   /\ dict_lookup "payload" failed_f = Some (VDict errors_1)
   /\ dict_lookup "errors" errors_1 = Some (VList [VStr "boom"])
   /\ _response_payload complete_f = inl VNone)
  /\ exists w1 w2,
      gql_execute sample_uuid "{ x }" VNone (scripted stream_failed)
      = (Raise (GraphqlWsResponseError (VDict errors_1) (VList [VStr "boom"])),
         w1)
      /\ inbound w1 = [(1%N, Deliver complete_f)]
      /\ gql_receive (VStr "f") w1 = (Return VNone, w2)
      /\ inbound w2 = [].
Proof.
  split; [repeat split|].
  exact (X18_drain_after_failed_execute
           sample_uuid "{ x }" VNone (scripted stream_failed)
           [] [] 1%N 1%N failed_f complete_f [] errors_1
           (VList [VStr "boom"]) VNone
           eq_refl eq_refl eq_refl eq_refl eq_refl eq_refl eq_refl eq_refl
           eq_refl eq_refl eq_refl).
Defined.

(** ** Sessions and queries *)

Module SessionFacts.
Import Py Transport Client Script Textwrap.

(** The handshake succeeds on an acknowledgement. *)
Lemma gql_connect_and_init_ack (TIMEOUT : Z) (w : world) (dt : N)
      (ack : dict) (rest : list (N * reaction)) :
  connect_fault w = None ->
  hd None (send_faults w) = None ->
  inbound w = (dt, Deliver ack) :: rest ->
  dict_lookup "type" ack = Some (VStr "connection_ack") ->
  gql_connect_and_init TIMEOUT false w
  = (Return tt,
     received dt rest (sent connection_init (log (Connect TIMEOUT) w))).
Proof.
  intros C S E T.
  unfold gql_connect_and_init.
  rewrite (MonadFacts.bind_return _ _ _ _ _
             (MonadFacts.connect_ok TIMEOUT w C)).
  cbv beta. change (negb false) with true. cbv iota.
  rewrite (MonadFacts.bind_return _ _ _ _ _
             (MonadFacts.send_ok _ (log (Connect TIMEOUT) w) S)).
  cbv beta.
  rewrite (MonadFacts.bind_return _ _ _ _ _
             (MonadFacts.receive_deliver
                (sent _ (log (Connect TIMEOUT) w)) dt ack rest E)).
  unfold bind, lift, dict_getitem. rewrite T. reflexivity.
Qed.

Lemma prefix_of_empty (s : string) :
  String.prefix s EmptyString = true -> s = EmptyString.
Proof. destruct s; [reflexivity | discriminate]. Qed.

(** [dedent] leaves alone a text that has a line starting in the first
    column and no line made of blanks only. *)
Lemma dedent_flush_left (text : string) :
  (forall l, In l (split_lines text) -> all_blank l = true ->
             l = EmptyString) ->
  (exists l, In l (split_lines text)
             /\ l <> EmptyString /\ leading_blanks l = EmptyString) ->
  dedent text = text.
Proof.
  intros Clean [l0 [In0 [N0 L0]]].
  assert (Same : dedent_lines text = split_lines text).
  { unfold dedent_lines.
    rewrite <- (map_id (split_lines text)) at 2.
    apply map_ext_in. intros l Hl. unfold clear_blank_line.
    destruct (all_blank l) eqn:B; [|reflexivity].
    symmetry. apply Clean; assumption. }
  destruct (TextwrapFacts.dedent_common_indent text) as [margin [[C _] D]].
  rewrite Same in C, D.
  assert (M : margin = EmptyString).
  { apply prefix_of_empty. rewrite <- L0. apply C; assumption. }
  rewrite D, M. simpl String.length.
  rewrite (map_ext _ (fun l => l)) by reflexivity.
  rewrite map_id. apply TextwrapFacts.join_split_lines.
Qed.

End SessionFacts.

(** X19: a whole session.  On a transport that works, with the
    acknowledgement, the data message and the complete message arriving
    in this order, a caller who runs the handshake, one [gql_execute]
    and [gql_finalize] gets the data payload; the transport sees
    connect, the init message, one receive, the start message, two
    receives and shutdown, in this order, and what arrived after the
    complete message was never read. *)
Theorem X19_session_trace :
  forall (TIMEOUT : Z) (uuid4_hex : nat -> string) (query : string)
         (variables : value) (w : world) (d0 d1 d2 : N)
         (ack data complete : dict) (rest : list (N * reaction))
         (payload last : value),
    let id := VStr (uuid4_hex (uuids_drawn w)) in
    connect_fault w = None ->
    send_faults w = [] ->
    inbound w
    = (d0, Deliver ack) :: (d1, Deliver data) :: (d2, Deliver complete)
      :: rest ->
    dict_lookup "type" ack = Some (VStr "connection_ack") ->
    _is_keep_alive_response data = false ->
    _is_keep_alive_response complete = false ->
    dict_lookup "id" data = Some id ->
    dict_lookup "id" complete = Some id ->
    _response_payload data = inl payload ->
    _response_payload complete = inl last ->
    exists w',
      session TIMEOUT uuid4_hex query variables w = (Return payload, w')
      /\ inbound w' = rest
      /\ trace w'
         = trace w
           ++ [Connect TIMEOUT; Send connection_init; Receive;
               Send (start_message id query variables); Receive; Receive;
               Shutdown].
Proof.
  intros TIMEOUT uuid4_hex query variables w d0 d1 d2 ack data complete rest
         payload last id C S E T K1 K2 I1 I2 P1 P2.
  pose (wh := received d0 ((d1, Deliver data) :: (d2, Deliver complete) :: rest)
                       (sent connection_init (log (Connect TIMEOUT) w))).
  assert (H : gql_connect_and_init TIMEOUT false w = (Return tt, wh)).
  { apply (SessionFacts.gql_connect_and_init_ack TIMEOUT w d0 ack _ C);
      [rewrite S; reflexivity | exact E | exact T]. }
  assert (Sh : hd None (send_faults wh) = None).
  { unfold wh. simpl. rewrite S. reflexivity. }
  destruct (ExchangeFacts.gql_receive_twice
              id (sent (start_message id query variables) (drawn wh))
              [] [] d1 d2 data complete rest eq_refl eq_refl eq_refl K1 K2)
    as [w1 [w2 [R1 [_ [R2 [E2 [_ T2]]]]]]].
  { exists id. split; [exact I1 | apply MessageFacts.py_eq_str_refl]. }
  { exists id. split; [exact I2 | apply MessageFacts.py_eq_str_refl]. }
  rewrite P1 in R1. rewrite P2 in R2.
  exists (log Shutdown w2).
  split; [|split].
  - unfold session.
    rewrite (MonadFacts.bind_return _ _ _ _ _ H). cbv beta.
    assert (X : gql_execute uuid4_hex query variables wh
                = (Return payload, w2)).
    { unfold gql_execute.
      erewrite MonadFacts.bind_return;
        [|rewrite MessageFacts.gql_start_run, Sh; reflexivity].
      cbv beta.
      rewrite (MonadFacts.bind_return _ _ _ _ _ R1). cbv beta.
      rewrite (MonadFacts.bind_return _ _ _ _ _ R2).
      reflexivity. }
    rewrite (MonadFacts.bind_return _ _ _ _ _ X). cbv beta.
    reflexivity.
  - exact E2.
  - simpl. rewrite T2. simpl. rewrite <- !app_assoc. reflexivity.
Qed.

Lemma X19_session_trace_witness :
  (connect_fault (scripted stream_session) = None
   /\ send_faults (scripted stream_session) = []
   /\ inbound (scripted stream_session) = stream_session
   /\ dict_lookup "type" connection_ack = Some (VStr "connection_ack")
   /\ _response_payload data_f = inl data_1
   /\ _response_payload complete_f = inl VNone)
  /\ exists w',
      session 60 sample_uuid "{ x }" VNone (scripted stream_session)
      = (Return data_1, w')
      /\ inbound w' = [(1%N, Deliver keep_alive)]
      /\ trace w'
         = [Connect 60; Send connection_init; Receive;
            Send (start_message (VStr "f") "{ x }" VNone); Receive; Receive;
            Shutdown].
Proof.
  split; [repeat split|].
  exact (X19_session_trace
           60 sample_uuid "{ x }" VNone (scripted stream_session)
           1%N 1%N 1%N connection_ack data_f complete_f
           [(1%N, Deliver keep_alive)] data_1 VNone
           eq_refl eq_refl eq_refl eq_refl eq_refl eq_refl eq_refl eq_refl
           eq_refl eq_refl).
Defined.

(** X20: [gql_start] sends a query unchanged when one of its lines
    starts in the first column and none is made of blanks only: there
    is no common indentation for [textwrap.dedent] to take off. *)
Theorem X20_start_keeps_flush_left_query :
  forall (uuid4_hex : nat -> string) (query : string) (variables : value)
         (w : world),
    (forall l, In l (Textwrap.split_lines query) ->
               Textwrap.all_blank l = true -> l = EmptyString) ->
    (exists l, In l (Textwrap.split_lines query)
               /\ l <> EmptyString
               /\ Textwrap.leading_blanks l = EmptyString) ->
    Textwrap.dedent query = query
    /\ gql_start uuid4_hex query variables w
       = (match hd None (send_faults w) with
          | None => Return (VStr (uuid4_hex (uuids_drawn w)))
          | Some e => Raise e
          end,
          sent [("id", VStr (uuid4_hex (uuids_drawn w)));
                ("type", VStr "start");
                ("payload",
                 VDict [("query", VStr query);
                        ("variables", py_or variables (VDict []))])]
               (drawn w)).
Proof.
  intros uuid4_hex query variables w Clean Flush.
  pose proof (SessionFacts.dedent_flush_left query Clean Flush) as D.
  split; [exact D|].
  rewrite MessageFacts.gql_start_run.
  unfold start_message. rewrite D. reflexivity.
Qed.

Lemma X20_start_keeps_flush_left_query_witness :
  ((forall l, In l (Textwrap.split_lines flush_query) ->
              Textwrap.all_blank l = true -> l = EmptyString)
   /\ exists l, In l (Textwrap.split_lines flush_query)
                /\ l <> EmptyString
                /\ Textwrap.leading_blanks l = EmptyString)
  /\ Textwrap.dedent flush_query = flush_query.
Proof.
  assert (Clean : forall l, In l (Textwrap.split_lines flush_query) ->
                            Textwrap.all_blank l = true -> l = EmptyString).
  { intros l [<-|[<-|[<-|[]]]] B; discriminate B. }
  assert (Flush : exists l, In l (Textwrap.split_lines flush_query)
                            /\ l <> EmptyString
                            /\ Textwrap.leading_blanks l = EmptyString).
  { exists "}". split; [right; right; left; reflexivity|].
    split; [discriminate | reflexivity]. }
  split; [split; assumption|].
  exact (proj1 (X20_start_keeps_flush_left_query
                  sample_uuid flush_query VNone (scripted []) Clean Flush)).
Defined.

(** X21: when the transport refuses the start message, [gql_execute]
    and [gql_subscribe] raise its exception without any [receive()];
    the identifier has been minted all the same and is lost. *)
Theorem X21_failed_send_stops_exchange :
  forall (uuid4_hex : nat -> string) (query : string) (variables : value)
         (w : world) (e : exn) (wait_confirmation : bool),
    let id := VStr (uuid4_hex (uuids_drawn w)) in
    hd None (send_faults w) = Some e ->
    gql_execute uuid4_hex query variables w
    = (Raise e, sent (start_message id query variables) (drawn w))
    /\ gql_subscribe uuid4_hex query variables wait_confirmation w
       = (Raise e, sent (start_message id query variables) (drawn w))
    /\ inbound (sent (start_message id query variables) (drawn w))
       = inbound w
    /\ uuids_drawn (sent (start_message id query variables) (drawn w))
       = S (uuids_drawn w).
Proof.
  intros uuid4_hex query variables w e wait_confirmation id F.
  assert (G : gql_start uuid4_hex query variables w
              = (Raise e, sent (start_message id query variables) (drawn w))).
  { rewrite MessageFacts.gql_start_run, F. reflexivity. }
  split; [|split; [|split; reflexivity]].
  - unfold gql_execute. exact (MonadFacts.bind_raise _ _ _ _ _ G).
  - unfold gql_subscribe. exact (MonadFacts.bind_raise _ _ _ _ _ G).
Qed.

Lemma X21_failed_send_stops_exchange_witness :
  hd None (send_faults broken_pipe) = Some (TransportError "closed")
  /\ gql_execute sample_uuid "{ x }" VNone broken_pipe
     = (Raise (TransportError "closed"),
        sent (start_message (VStr "f") "{ x }" VNone) (drawn broken_pipe)).
Proof.
  split; [reflexivity|].
  exact (proj1 (X21_failed_send_stops_exchange
                  sample_uuid "{ x }" VNone broken_pipe
                  (TransportError "closed") true eq_refl)).
Defined.

Lemma X1_keep_alive_is_type_ka_witness :
  dict_lookup "type" keep_alive = Some (VStr "ka")
  /\ _is_keep_alive_response keep_alive = true
  /\ _is_keep_alive_response message_no_id = false.
Proof.
  split; [reflexivity|].
  split; [exact (proj2 (X1_keep_alive_is_type_ka keep_alive) eq_refl)|].
  destruct (_is_keep_alive_response message_no_id) eqn:K; [|reflexivity].
  apply (proj1 (X1_keep_alive_is_type_ka message_no_id)) in K.
  discriminate K.
Defined.

Lemma X2_response_error_iff_errors_key_witness :
  (dict_lookup "payload" failed_f = Some (VDict errors_1)
   /\ dict_lookup "errors" errors_1 = Some (VList [VStr "boom"]))
  /\ _response_payload failed_f
     = inr (GraphqlWsResponseError (VDict errors_1) (VList [VStr "boom"])).
Proof.
  split; [repeat split|].
  exact (proj2 (X2_response_error_iff_errors_key
                  failed_f (VDict errors_1) (VList [VStr "boom"]))
               (ex_intro _ errors_1 (conj eq_refl (conj eq_refl eq_refl)))).
Defined.

Lemma X11_subscribe_without_confirmation_witness :
  gql_subscribe sample_uuid "{ x }" VNone false (scripted stream_confirmed)
  = (Return (VStr "f"),
     sent (start_message (VStr "f") "{ x }" VNone)
          (drawn (scripted stream_confirmed)))
  /\ inbound (sent (start_message (VStr "f") "{ x }" VNone)
                   (drawn (scripted stream_confirmed)))
     = stream_confirmed.
Proof.
  destruct (X11_subscribe_without_confirmation
              sample_uuid "{ x }" VNone (scripted stream_confirmed))
    as [H1 [H2 _]].
  split; [exact H1 | exact H2].
Defined.
